(** * neuro-san-studio coded tools: a shallow embedding and its properties

    The development embeds the two coded tools of the repository,

    - [coded_tools/text_file_info_provider.py] (class [TextFileInfoProvider]),
    - [coded_tools/mcp_quote_generator.py] (class [McpQuoteGenerator]),

    as executable Rocq functions, and proves properties of them.

    Conventions of the embedding.

    - A Python [str] is a [string]; a character of the model is a code point
      below 256.  The cross mark that opens the quote tool's messages lies
      outside that range and is carried as its UTF-8 encoding.
    - A Python [int] is a [Z]; a [float] is a [spec_float] of the IEEE
      binary64 format; [bool] is a subtype of [int], as in Python.
    - A Python [dict] with string keys is a [gmap string pyval];
      [d.get(k)] is [d !! k] followed by the default.
    - A computation that may raise is an [outcome]; a computation that also
      calls a collaborator (vector store, MCP client) is an [M], which in
      addition records the calls made, in order.
    - Collaborators (file system, text splitter, embedding index, MCP
      server, clock) are fields of a [World] record: the functions are
      total in every behaviour of the collaborators.  Exceptions are
      instances of [Exception]; interpreter signals that are not
      ([KeyboardInterrupt], task cancellation) are outside the model.
    - Of logging, the model keeps what can raise: the evaluation of the
      message, an f-string or a [json.dumps], before the logger is called.
    - Conversions between [int] and text obey the interpreter's limit of
      4300 digits ([sys.get_int_max_str_digits()], CPython 3.11). *)

From Stdlib Require Import ZArith List Strings.String Strings.Ascii Bool Lia.
From Stdlib Require Import Floats.SpecFloat.
From stdpp Require Import base option gmap strings.

(** ** The Python runtime *)

Module Py.

Local Open Scope Z_scope.

(** *** Strings *)

Definition nl : string := String "010" EmptyString.

Definition len (s : string) : Z := Z.of_nat (String.length s).

Definition ord (c : ascii) : Z := Z.of_nat (nat_of_ascii c).

Definition chr (z : Z) : ascii := ascii_of_nat (Z.to_nat z).

(** [str.isspace] on code points below 256. *)
Definition isspace (c : ascii) : bool :=
  let n := ord c in
  ((9 <=? n) && (n <=? 13)) || ((28 <=? n) && (n <=? 32))
  || (n =? 133) || (n =? 160).

Fixpoint lstrip (s : string) : string :=
  match s with
  | EmptyString => EmptyString
  | String c s' => if isspace c then lstrip s' else s
  end.

Fixpoint rstrip (s : string) : string :=
  match s with
  | EmptyString => EmptyString
  | String c s' =>
      match rstrip s' with
      | EmptyString => if isspace c then EmptyString else String c EmptyString
      | r => String c r
      end
  end.

(** [s.strip()] *)
Definition strip (s : string) : string := rstrip (lstrip s).

(** [str.lower] on code points below 256. *)
Definition lower_char (c : ascii) : ascii :=
  let n := ord c in
  if ((65 <=? n) && (n <=? 90))
     || ((192 <=? n) && (n <=? 222) && negb (n =? 215))
  then chr (n + 32) else c.

Fixpoint lower (s : string) : string :=
  match s with
  | EmptyString => EmptyString
  | String c s' => String (lower_char c) (lower s')
  end.

(** [sub in s] *)
Fixpoint str_in (sub s : string) : bool :=
  String.prefix sub s ||
  match s with
  | EmptyString => false
  | String _ s' => str_in sub s'
  end.

(** [s.replace(old, new)] for a pattern [old] of one character. *)
Fixpoint replace_char (old : ascii) (new : string) (s : string) : string :=
  match s with
  | EmptyString => EmptyString
  | String c s' =>
      if Ascii.eqb c old then new +:+ replace_char old new s'
      else String c (replace_char old new s')
  end.

(** [sep.join(parts)] *)
Definition join (sep : string) (parts : list string) : string :=
  String.concat sep parts.

(** [s[:stop]] for an integer [stop]: a negative [stop] counts from the
    end, and both ends are clamped to the string. *)
Definition slice_to (s : string) (stop : Z) : string :=
  let stop' := if stop <? 0 then Z.max 0 (len s + stop) else Z.min stop (len s) in
  String.substring 0 (Z.to_nat stop') s.

(** *** Integers as text *)

Definition digit_char (d : Z) : ascii := chr (48 + d).

Fixpoint digits_fuel (fuel : nat) (n : Z) (acc : string) : string :=
  match fuel with
  | O => acc
  | S fuel' =>
      let acc' := String (digit_char (n mod 10)) acc in
      if n <? 10 then acc' else digits_fuel fuel' (n / 10) acc'
  end.

(** Decimal digits of [n >= 0]; the binary length of [n] is fuel enough. *)
Definition digits (n : Z) : string :=
  digits_fuel (S (Z.to_nat (Z.log2 n))) n EmptyString.

(** The decimal text of an [int]: what [str(z)] returns within the limit
    on the number of digits (see [int_to_str] below). *)
Definition str_int (z : Z) : string :=
  if z <? 0 then String "-" (digits (- z)) else digits z.

Definition is_digit (c : ascii) : bool := (48 <=? ord c) && (ord c <=? 57).

(** The digits of an integer literal: decimal digits, with single
    underscores allowed between two digits. *)
Fixpoint parse_digits (s : string) (acc : Z) (after_digit : bool) : option Z :=
  match s with
  | EmptyString => if after_digit then Some acc else None
  | String c s' =>
      if is_digit c then parse_digits s' (10 * acc + (ord c - 48)) true
      else if Ascii.eqb c "_" && after_digit then parse_digits s' acc false
      else None
  end.

(** The white space that [int()] skips around a literal: the ASCII white
    space, and the two other code points below 256 that it turns into a
    space before parsing.  The separators 28 to 31 are white space for
    [str.strip] and not for [int()]. *)
Definition int_isspace (c : ascii) : bool :=
  let n := ord c in
  ((9 <=? n) && (n <=? 13)) || (n =? 32) || (n =? 133) || (n =? 160).

Fixpoint int_lstrip (s : string) : string :=
  match s with
  | EmptyString => EmptyString
  | String c s' => if int_isspace c then int_lstrip s' else s
  end.

(** The run of digits and underscores at the head of a string, and what
    follows it. *)
Fixpoint span_digits (s : string) : string * string :=
  match s with
  | EmptyString => (EmptyString, EmptyString)
  | String c s' =>
      if is_digit c || Ascii.eqb c "_"
      then let '(run, rest) := span_digits s' in (String c run, rest)
      else (EmptyString, s)
  end.

Fixpoint count_digits (s : string) : Z :=
  match s with
  | EmptyString => 0
  | String c s' => (if is_digit c then 1 else 0) + count_digits s'
  end.

(** [sys.get_int_max_str_digits()]: the longest decimal text, in digits,
    that is converted to or from an [int]. *)
Definition int_max_str_digits : Z := 4300.

(** The number of decimal digits of an [int]. *)
Definition ndigits (z : Z) : Z := len (digits (Z.abs z)).

Inductive parsed : Type :=
  | Parsed (z : Z)
  | Invalid
  | TooLong (count : Z).

(** The literal that [int(s)] reads: white space, a sign, digits with
    single underscores between them, white space.  The run of digits is
    scanned first; a run that is longer than the limit is refused before
    what follows it is looked at. *)
Definition parse_int (s : string) : parsed :=
  let t := int_lstrip s in
  let '(negative, body) :=
    match t with
    | String "+" r => (false, r)
    | String "-" r => (true, r)
    | _ => (false, t)
    end in
  let '(run, rest) := span_digits body in
  match parse_digits run 0 false with
  | None => Invalid
  | Some v =>
      if int_max_str_digits <? count_digits run then TooLong (count_digits run)
      else match int_lstrip rest with
           | EmptyString => Parsed (if negative then - v else v)
           | _ => Invalid
           end
  end.

(** *** [repr] of a string *)

Definition squote : ascii := "'".
Definition dquote : ascii := "034".
Definition backslash : ascii := "\".

Definition hex_digit (n : Z) : ascii :=
  if n <? 10 then chr (48 + n) else chr (87 + n).

Definition printable (c : ascii) : bool :=
  let n := ord c in
  negb ((n <? 32) || ((127 <=? n) && (n <=? 160)) || (n =? 173)).

Definition repr_char (quote c : ascii) : string :=
  let n := ord c in
  if Ascii.eqb c quote || Ascii.eqb c backslash then String backslash (String c EmptyString)
  else if n =? 9 then "\t"
  else if n =? 10 then "\n"
  else if n =? 13 then "\r"
  else if printable c then String c EmptyString
  else "\x" +:+ String (hex_digit (n / 16)) (String (hex_digit (n mod 16)) EmptyString).

Fixpoint repr_body (quote : ascii) (s : string) : string :=
  match s with
  | EmptyString => EmptyString
  | String c s' => repr_char quote c +:+ repr_body quote s'
  end.

Definition has_char (c : ascii) (s : string) : bool :=
  str_in (String c EmptyString) s.

(** [repr(s)]: single quotes, unless the string holds a single quote and no
    double quote. *)
Definition repr_str (s : string) : string :=
  let quote := if has_char squote s && negb (has_char dquote s) then dquote else squote in
  String quote (repr_body quote s +:+ String quote EmptyString).

(** *** Exceptions *)

Inductive exc_class : Type :=
  | ImportError | ModuleNotFoundError
  | TypeError | ValueError | OverflowError
  | OSError | UnicodeDecodeError
  | OtherException (name : string).

(** An instance of [Exception]; [exc_msg] is what [str(e)] returns. *)
Record PyExc : Type := mkExc { exc_type : exc_class; exc_msg : string }.

(** [isinstance(e, ImportError)] *)
Definition is_ImportError (e : PyExc) : bool :=
  match exc_type e with
  | ImportError | ModuleNotFoundError => true
  | _ => false
  end.

Inductive outcome (A : Type) : Type :=
  | Ret (a : A)
  | Raise (e : PyExc).
Arguments Ret {A} a.
Arguments Raise {A} e.

#[global] Instance outcome_ret : MRet outcome := fun A a => Ret a.
#[global] Instance outcome_bind : MBind outcome := fun A B f m =>
  match m with
  | Ret a => f a
  | Raise e => Raise e
  end.

Definition raise {A : Type} (c : exc_class) (msg : string) : outcome A :=
  Raise (mkExc c msg).

(** *** Values *)

Inductive pyval : Type :=
  | PNone
  | PBool (b : bool)
  | PInt (z : Z)
  | PFloat (f : spec_float)
  | PStr (s : string).

Definition prec : Z := 53.
Definition emax : Z := 1024.

(** The name of the type of a value, as error messages print it. *)
Definition type_name (v : pyval) : string :=
  match v with
  | PNone => "NoneType"
  | PBool _ => "bool"
  | PInt _ => "int"
  | PFloat _ => "float"
  | PStr _ => "str"
  end.

(** Truth value: [bool(v)] *)
Definition truthy (v : pyval) : bool :=
  match v with
  | PNone => false
  | PBool b => b
  | PInt z => negb (z =? 0)
  | PFloat (S754_zero _) => false
  | PFloat _ => true
  | PStr s => negb (String.eqb s EmptyString)
  end.

(** [isinstance(v, int)]; [bool] is a subclass of [int]. *)
Definition isinstance_int (v : pyval) : bool :=
  match v with
  | PBool _ | PInt _ => true
  | _ => false
  end.

(** [isinstance(v, str)] *)
Definition isinstance_str (v : pyval) : bool :=
  match v with
  | PStr _ => true
  | _ => false
  end.

(** The integer of a value that has [__index__]. *)
Definition as_index (v : pyval) : option Z :=
  match v with
  | PBool b => Some (Z.b2z b)
  | PInt z => Some z
  | _ => None
  end.

(** [v != s] for a string literal [s]. *)
Definition ne_str (v : pyval) (s : string) : bool :=
  match v with
  | PStr s' => negb (String.eqb s' s)
  | _ => true
  end.

(** *** Arithmetic between integers and floats *)

(** The conversion of an [int] operand to [float]: round to nearest even,
    [OverflowError] beyond the range of the format. *)
Definition float_of_int (z : Z) : outcome spec_float :=
  match binary_normalize prec emax z 0 false with
  | S754_infinity _ => raise OverflowError "int too large to convert to float"
  | f => Ret f
  end.

(** Exact comparison of an integer with a float; [None] for a NaN. *)
Definition compare_int_float (a : Z) (f : spec_float) : option comparison :=
  match f with
  | S754_zero _ => Some (a ?= 0)
  | S754_infinity neg => Some (if neg then Gt else Lt)
  | S754_nan => None
  | S754_finite neg m e =>
      let v := if neg then Z.neg m else Z.pos m in
      Some (if 0 <=? e then a ?= v * 2 ^ e else a * 2 ^ (- e) ?= v)
  end.

Definition cmp_error {A : Type} (op : string) (l r : string) : outcome A :=
  raise TypeError ("'" +:+ op +:+ "' not supported between instances of '"
                   +:+ l +:+ "' and '" +:+ r +:+ "'").

(** [a > b] for an integer [a]. *)
Definition int_gt (a : Z) (b : pyval) : outcome bool :=
  match b with
  | PBool _ | PInt _ => Ret (default 0 (as_index b) <? a)
  | PFloat f => Ret (match compare_int_float a f with Some Gt => true | _ => false end)
  | _ => cmp_error ">" "int" (type_name b)
  end.

(** [a > b] for an integer [b]. *)
Definition gt_int (a : pyval) (b : Z) : outcome bool :=
  match a with
  | PBool _ | PInt _ => Ret (b <? default 0 (as_index a))
  | PFloat f => Ret (match compare_int_float b f with Some Lt => true | _ => false end)
  | _ => cmp_error ">" (type_name a) "int"
  end.

(** [a - b] for an integer [b]. *)
Definition sub_int (a : pyval) (b : Z) : outcome pyval :=
  match a with
  | PBool _ | PInt _ => Ret (PInt (default 0 (as_index a) - b))
  | PFloat f => fb ← float_of_int b; Ret (PFloat (SFsub prec emax f fb))
  | _ => raise TypeError ("unsupported operand type(s) for -: '"
                          +:+ type_name a +:+ "' and 'int'")
  end.

(** [s[:stop]] *)
Definition slice_to_val (s : string) (stop : pyval) : outcome string :=
  match stop with
  | PNone => Ret s
  | PBool _ | PInt _ => Ret (slice_to s (default 0 (as_index stop)))
  | _ => raise TypeError
           "slice indices must be integers or None or have an __index__ method"
  end.

(** [str(z)], [repr(z)] and [f"{z}"] for an [int]: refused beyond the
    limit on the number of digits. *)
Definition int_to_str (z : Z) : outcome string :=
  if int_max_str_digits <? ndigits z
  then raise ValueError
         "Exceeds the limit (4300 digits) for integer string conversion; use sys.set_int_max_str_digits() to increase the limit"
  else Ret (str_int z).

(** [int(s)] for a string; the message of an invalid literal shows the
    first 200 characters of [repr(s)]. *)
Definition int_of_str (s : string) : outcome Z :=
  match parse_int s with
  | Parsed z => Ret z
  | Invalid =>
      raise ValueError ("invalid literal for int() with base 10: "
                        +:+ slice_to (repr_str s) 200)
  | TooLong count =>
      raise ValueError ("Exceeds the limit (4300 digits) for integer string conversion: value has "
                        +:+ str_int count
                        +:+ " digits; use sys.set_int_max_str_digits() to increase the limit")
  end.

(** [int(f)] for a float: truncation toward zero. *)
Definition int_of_float (f : spec_float) : outcome Z :=
  match f with
  | S754_zero _ => Ret 0
  | S754_infinity _ => raise OverflowError "cannot convert float infinity to integer"
  | S754_nan => raise ValueError "cannot convert float NaN to integer"
  | S754_finite neg m e =>
      let a := if 0 <=? e then Z.pos m * 2 ^ e else Z.pos m / 2 ^ (- e) in
      Ret (if neg then - a else a)
  end.

(** [int(v)] *)
Definition int_of (v : pyval) : outcome Z :=
  match v with
  | PNone =>
      raise TypeError
        "int() argument must be a string, a bytes-like object or a real number, not 'NoneType'"
  | PBool b => Ret (Z.b2z b)
  | PInt z => Ret z
  | PFloat f => int_of_float f
  | PStr s => int_of_str s
  end.

(** The text of a value; the shortest round-trip rendering of a float is
    the interpreter's and is taken as given. *)
Definition str_of (float_str : spec_float → string) (v : pyval) : string :=
  match v with
  | PNone => "None"
  | PBool true => "True"
  | PBool false => "False"
  | PInt z => str_int z
  | PFloat f => float_str f
  | PStr s => s
  end.

(** [str(v)] and [f"{v}"]: the text of the value, unless the value is an
    [int] beyond the limit on the number of digits. *)
Definition format_val (float_str : spec_float → string) (v : pyval) : outcome string :=
  match v with
  | PInt z => int_to_str z
  | _ => Ret (str_of float_str v)
  end.

(** [sep.join(items)]: every item has to be a [str]. *)
Fixpoint join_items_from (i : Z) (items : list pyval) : outcome (list string) :=
  match items with
  | [] => Ret []
  | PStr s :: rest => parts ← join_items_from (i + 1) rest; Ret (s :: parts)
  | v :: _ =>
      raise TypeError ("sequence item " +:+ str_int i +:+ ": expected str instance, "
                       +:+ type_name v +:+ " found")
  end.

Definition join_items (sep : string) (items : list pyval) : outcome string :=
  parts ← join_items_from 0 items; Ret (join sep parts).

(** [if not s: s = dflt], for a string [s]. *)
Definition or_if_empty (s dflt : string) : string :=
  if String.eqb s EmptyString then dflt else s.

(** [sys.maxsize]: no sequence is longer. *)
Definition sys_maxsize : Z := 2 ^ 63 - 1.

(** [d.get(key, dflt)] *)
Definition get (d : gmap string pyval) (key : string) (dflt : pyval) : pyval :=
  default dflt (d !! key).

(** *** Computations that call collaborators *)

(** The calls made so far, oldest first, and the outcome. *)
Definition M (E A : Type) : Type := list E * outcome A.

#[global] Instance M_ret {E} : MRet (M E) := fun A a => ([], Ret a).
#[global] Instance M_bind {E} : MBind (M E) := fun A B f m =>
  match m with
  | (t, Ret a) => let '(t', r) := f a in (t ++ t', r)
  | (t, Raise e) => (t, Raise e)
  end.

(** A pure computation, which makes no call. *)
Definition lift {E A : Type} (o : outcome A) : M E A := ([], o).

(** A call to a collaborator: the call is recorded, the collaborator's
    answer is the outcome. *)
Definition call {E A : Type} (ev : E) (answer : outcome A) : M E A := ([ev], answer).

(** [try: body / except Exception as e: handler(e)] *)
Definition try_except {E A : Type} (body : M E A) (handler : PyExc → M E A) : M E A :=
  match body with
  | (t, Raise e) => let '(t', r) := handler e in (t ++ t', r)
  | (t, Ret a) => (t, Ret a)
  end.

Definition trace {E A : Type} (m : M E A) : list E := m.1.
Definition result {E A : Type} (m : M E A) : outcome A := m.2.

End Py.

(** ** The retrieval tool: [coded_tools/text_file_info_provider.py] *)

Module TextFileInfoProvider.

Import Py.
Local Open Scope Z_scope.

Record Metadata : Type := mkMetadata {
  source : string;
  doc_type : string;
  content_type : string;
  chunk_id : option Z;
  chunk_size : option Z;
  keywords : option (list string)
}.

Record Document : Type := mkDocument {
  page_content : string;
  metadata : Metadata
}.

(** An [InMemoryVectorStore] built from documents. *)
Record VectorStore : Type := mkVectorStore { indexed : list Document }.

(** The two indexes of the tool: the one held in [self.vector_store], and
    the one a call on a custom file builds for itself. *)
Inductive index_ref : Type := SelfVectorStore | TempVectorStore.

(** Calls to the embedding index. *)
Inductive event : Type :=
  | FromDocuments (which : index_ref) (docs : list Document)
  | RetrieverInvoke (which : index_ref) (k : pyval) (search_query : string).


Record World : Type := mkWorld {
  float_str : spec_float → string;
  (** [os.path.dirname(os.path.dirname(os.path.abspath(__file__)))] *)
  project_root : string;
  os_path_isabs : string → bool;
  os_path_join : string → string → string;
  os_path_exists : string → bool;
  (** [open(path, 'r', encoding='utf-8').read()] *)
  read_text : string → outcome string;
  (** [RecursiveCharacterTextSplitter...split_documents([doc])] *)
  split_documents : Document → outcome (list Document);
  (** [InMemoryVectorStore.from_documents(documents, embedding)] *)
  from_documents : list Document → outcome unit;
  (** [store.as_retriever(search_kwargs={"k": k}).ainvoke(search_query)] *)
  retriever_ainvoke : VectorStore → pyval → string → outcome (list Document);
  (** [OpenAIEmbeddings(model="text-embedding-3-small", dimensions=1536)] *)
  new_embeddings : outcome unit
}.

(** The instance state: [self.vector_store]. *)
Record Self : Type := mkSelf { vector_store : option VectorStore }.

Definition DEFAULT_FILE_PATH : string := "data/excess_specialty_lines_info.txt".

Definition insurance_keywords : list string :=
  [ "excess"; "specialty lines"; "surplus lines"; "commercial property";
    "liability"; "coverage"; "programs"; "contractors"; "manufacturing";
    "property damage"; "bodily injury"; "professional liability";
    "workers compensation"; "cyber liability"; "general liability";
    "auto liability"; "umbrella"; "crime"; "equipment breakdown";
    "inland marine"; "builders risk"; "vacant building" ].

Definition _extract_keywords (text : string) : list string :=
  let text_lower := lower text in
  List.filter (fun keyword => str_in keyword text_lower) insurance_keywords.

Definition _create_documents_from_content (w : World) (content source_path : string)
  : list Document :=
  let doc := mkDocument content
               (mkMetadata source_path "excess_specialty_lines_info"
                  "insurance_documentation" None None None) in
  match split_documents w doc with
  | Raise _ => []
  | Ret doc_chunks =>
      imap (fun i chunk =>
              let md := metadata chunk in
              mkDocument (page_content chunk)
                (mkMetadata (source md) (doc_type md) (content_type md)
                   (Some (Z.of_nat i))
                   (Some (len (page_content chunk)))
                   (Some (_extract_keywords (page_content chunk)))))
        doc_chunks
  end.

(** The path of a file named relative to the project root. *)
Definition resolve (w : World) (file_path : string) : string :=
  if negb (os_path_isabs w file_path)
  then os_path_join w (project_root w) file_path
  else file_path.

Definition _initialize_vector_store (w : World) : M event (option VectorStore) :=
  try_except
    (let file_path := resolve w DEFAULT_FILE_PATH in
     if negb (os_path_exists w file_path) then mret None
     else
       content ← lift (read_text w file_path);
       let documents := _create_documents_from_content w content file_path in
       match documents with
       | [] => mret None
       | _ =>
           _ ← call (FromDocuments SelfVectorStore documents) (from_documents w documents);
           mret (Some (mkVectorStore documents))
       end)
    (fun _ => mret None).

(** The constructor: the embeddings client is made outside every [try]
    statement, and a fault of its constructor is the constructor's. *)
Definition __init__ (w : World) : M event Self :=
  _ ← lift (new_embeddings w);
  vs ← _initialize_vector_store w; mret (mkSelf vs).

Definition marker_terms : list string :=
  [ "insurance"; "coverage"; "liability"; "property" ].

Definition _build_search_query (w : World) (query section : pyval) : outcome string :=
  section_part ←
    (if truthy section
     then text ← format_val (float_str w) section; Ret [PStr text]
     else Ret []);
  let search_parts := section_part ++ (if truthy query then [query] else []) in
  match search_parts with
  | [] => Ret EmptyString
  | _ =>
      search_query ← join_items " " search_parts;
      if negb (existsb (fun term => str_in term (lower search_query)) marker_terms)
      then Ret (search_query +:+ " insurance coverage")
      else Ret search_query
  end.

Definition response_header (query : string) : string :=
  "Found relevant information for '" +:+ query
  +:+ "' in excess and specialty lines documentation:" +:+ nl +:+ nl.

Definition section_header (i : Z) : string :=
  "--- Section " +:+ str_int (i + 1) +:+ " ---" +:+ nl.

Definition response_footer (included total : nat) : string :=
  if 1 <? Z.of_nat total
  then nl +:+ nl +:+ "[Retrieved " +:+ str_int (Z.of_nat included)
       +:+ " relevant sections from " +:+ str_int (Z.of_nat total)
       +:+ " total matches]"
  else EmptyString.

(** The loop of [_format_rag_results] over [enumerate(results)], from index
    [i] on; the result is the final [combined_content]. *)
Fixpoint format_sections (results : list Document) (i total_chars : Z)
    (combined_content : list string) (max_chars : pyval) : outcome (list string) :=
  match results with
  | [] => Ret combined_content
  | doc :: rest =>
      let content := strip (page_content doc) in
      let section_content := section_header i +:+ content in
      over ← int_gt (total_chars + len section_content + 2) max_chars;
      if over : bool then
        r ← sub_int max_chars total_chars;
        remaining_chars ← sub_int r 2;
        room ← gt_int remaining_chars 100;
        if room : bool then
          stop ← sub_int remaining_chars 20;
          cut ← slice_to_val content stop;
          Ret (combined_content ++ [section_header i +:+ (cut +:+ "...")])
        else Ret combined_content
      else
        format_sections rest (i + 1) (total_chars + len section_content + 2)
          (combined_content ++ [section_content]) max_chars
  end.

(** What a list of blocks adds to [total_chars]: each block and the two
    characters of its separator. *)
Fixpoint weight (blocks : list string) : Z :=
  match blocks with
  | [] => 0
  | b :: rest => len b + 2 + weight rest
  end.

Definition _format_rag_results (results : list Document) (query : string)
    (max_chars : pyval) : outcome string :=
  match results with
  | [] => Ret "No relevant information found."
  | _ =>
      let response := response_header query in
      combined_content ← format_sections results 0 (len response) [] max_chars;
      Ret (response +:+ join (nl +:+ nl) combined_content
           +:+ response_footer (length combined_content) (length results))
  end.

(** [os.path.isabs] and [os.path.join] accept a [str] only. *)
Definition resolve_val (w : World) (file_path : pyval) : outcome string :=
  match file_path with
  | PStr p => Ret (resolve w p)
  | v => raise TypeError
           ("expected str, bytes or os.PathLike object, not " +:+ type_name v)
  end.

Definition CUSTOM_SEARCH_QUERY : string := "information content".

(** The body of the [try] statement of [_query_custom_file]. *)
Definition query_custom_file_body (w : World)
    (file_path query section max_chars : pyval) : M event string :=
  file_path ← lift (resolve_val w file_path);
  if negb (os_path_exists w file_path)
  then mret ("Error: File not found at path: " +:+ file_path)
  else
    content ← lift (read_text w file_path);
    let documents := _create_documents_from_content w content file_path in
    match documents with
    | [] => mret ("Error: Could not process content from " +:+ file_path)
    | _ =>
        _ ← call (FromDocuments TempVectorStore documents) (from_documents w documents);
        let temp_vector_store := mkVectorStore documents in
        built ← lift (_build_search_query w query section);
        let search_query := or_if_empty built CUSTOM_SEARCH_QUERY in
        results ← call (RetrieverInvoke TempVectorStore (PInt 4) search_query)
                    (retriever_ainvoke w temp_vector_store (PInt 4) search_query);
        match results with
        | [] =>
            head ← lift (slice_to_val content max_chars);
            mret ("Content from " +:+ file_path +:+ ":" +:+ nl +:+ nl +:+ head)
        | _ => lift (_format_rag_results results search_query max_chars)
        end
    end.

(** The answer of the [except Exception] clause of [_query_custom_file]. *)
Definition custom_file_error (e : PyExc) : string :=
  "Error reading file: " +:+ exc_msg e.

(** The [except Exception] clause of [_query_custom_file]: the message it
    logs formats [file_path] first.  The variable holds the argument, or
    the resolved path, which is a string and formats as the argument
    does. *)
Definition custom_file_handler (w : World) (file_path : pyval) (e : PyExc)
  : M event string :=
  _ ← lift (format_val (float_str w) file_path);
  mret (custom_file_error e).

Definition _query_custom_file (w : World) (file_path query section max_chars : pyval)
  : M event string :=
  try_except (query_custom_file_body w file_path query section max_chars)
    (custom_file_handler w file_path).

Definition DEFAULT_SEARCH_QUERY : string :=
  "excess specialty lines insurance coverage programs".

Definition no_results_message (search_query : string) : string :=
  "No relevant information found for query: '" +:+ search_query +:+ "'".

(** The body of the [try] statement of [async_invoke]: the search in the
    pre-built store. *)
Definition search_prebuilt (w : World) (store : VectorStore)
    (query section max_chars k : pyval) : M event string :=
  built ← lift (_build_search_query w query section);
  let search_query := or_if_empty built DEFAULT_SEARCH_QUERY in
  results ← call (RetrieverInvoke SelfVectorStore k search_query)
              (retriever_ainvoke w store k search_query);
  match results with
  | [] => mret (no_results_message search_query)
  | _ => lift (_format_rag_results results search_query max_chars)
  end.

(** The [except Exception] clause of [async_invoke]. *)
Definition retrieval_error (e : PyExc) : string :=
  "Error retrieving information: " +:+ exc_msg e.

Definition NOT_INITIALIZED : string :=
  "Error: Vector store not initialized. Please check the excess_specialty_lines_info.txt file exists.".

Definition async_invoke (w : World) (self : Self) (args : gmap string pyval)
  : M event string :=
  let file_path := get args "file_path" PNone in
  let query := get args "query" (PStr EmptyString) in
  let section := get args "section" (PStr EmptyString) in
  let max_chars := get args "max_chars" (PInt 4000) in
  let k := get args "k" (PInt 4) in
  if truthy file_path && ne_str file_path DEFAULT_FILE_PATH
  then _query_custom_file w file_path query section max_chars
  else
    match vector_store self with
    | None => mret NOT_INITIALIZED
    | Some store =>
        try_except (search_prebuilt w store query section max_chars k)
          (fun e => mret (retrieval_error e))
    end.

(** The section blocks of [results], numbered from [i + 1] on, each with its
    whole content: [section_header + content] of the loop. *)
Fixpoint full_blocks (i : Z) (results : list Document) : list string :=
  match results with
  | [] => []
  | doc :: rest =>
      (section_header i +:+ strip (page_content doc)) :: full_blocks (i + 1) rest
  end.

End TextFileInfoProvider.

(** ** The quote tool: [coded_tools/mcp_quote_generator.py] *)

Module McpQuoteGenerator.

Import Py.
Local Open Scope Z_scope.

Definition DEFAULT_SQUARE_FOOTAGE : Z := 10000.
Definition DEFAULT_DEDUCTIBLE : Z := 1000.
Definition DEFAULT_POLICY_TERM_DAYS : Z := 365.
Definition RISK_TYPE : string := "General Business Risk".
Definition LOCATION_REFERENCE : string := "LOC-001".

(** A tool offered by the MCP server. *)
Record Tool : Type := mkTool { tool_name : string }.

(** The quote request, as the nested dictionary of the source. *)
Record Location : Type := mkLocation {
  address : pyval;
  property_type : pyval;
  square_footage : Z
}.

Record Coverage : Type := mkCoverage {
  coverage_type : pyval;
  coverage_limit : pyval
}.

Record Risk : Type := mkRisk {
  risk_type : string;
  location_reference : string;
  risk_description : string;
  coverages : list Coverage
}.

Record Line : Type := mkLine {
  line_type : pyval;
  policy_limit : pyval;
  deductible : pyval;
  risks : list Risk
}.

Record Quote : Type := mkQuote {
  created_date : string;
  expiration_date : string;
  quote_status : string;
  locations : list Location;
  lines : list Line
}.

Record QuoteRequest : Type := mkQuoteRequest { quote : Quote }.

(** Calls to the MCP client. *)
Inductive event : Type :=
  | ClientCreated (server_path : string)
  | GetTools
  | ToolInvoke (tool : Tool) (request : QuoteRequest).

Record World : Type := mkWorld {
  float_str : spec_float → string;
  (** [from langchain_mcp_adapters.client import MultiServerMCPClient] *)
  import_client : outcome unit;
  (** [MultiServerMCPClient({...})] for a server path *)
  new_client : string → outcome unit;
  (** [await client.get_tools()] *)
  get_tools : outcome (list Tool);
  (** [(datetime.now() + timedelta(days=d)).strftime("%Y-%m-%d")] *)
  date_after : Z → string;
  (** [str(await tool.ainvoke(request))] *)
  tool_ainvoke : Tool → QuoteRequest → outcome string
}.

(** The instance state: [self.mcp_server_path]. *)
Record Self : Type := mkSelf { mcp_server_path : string }.

(** [value.replace("$", "").replace(",", "")] *)
Definition amount_text (s : string) : string :=
  replace_char "," EmptyString (replace_char "$" EmptyString s).

Definition _parse_amount (value : pyval) (dflt : Z) : outcome pyval :=
  if isinstance_int value then Ret value
  else
    match value with
    | PStr s =>
        z ← int_of_str (amount_text s); Ret (PInt z)
    | _ => Ret (PInt dflt)
    end.

Definition required_params : list string :=
  [ "business_type"; "coverage_type"; "coverage_limit"; "location" ].

(** The required parameters that have no entry in [args]. *)
Definition absent_params (args : gmap string pyval) : list string :=
  List.filter (fun param => bool_decide (args !! param = None)) required_params.

Definition missing_params (args : gmap string pyval) : list string :=
  List.filter (fun param => negb (truthy (get args param PNone))) required_params.

(** The quote tool among those of the server: the first whose name holds
    both "quote" and "create", in any case. *)
Definition find_quote_tool (tools : list Tool) : option Tool :=
  List.find (fun tool => str_in "quote" (lower (tool_name tool))
                         && str_in "create" (lower (tool_name tool))) tools.

(** The request dictionary, given the entries that are computed from the
    arguments: [square_footage], [policy_limit], [deductible], the
    [risk_description] and the [coverage_limit] of the coverage. *)
Definition quote_request_of (w : World) (args : gmap string pyval)
    (footage : Z) (limit deduct : pyval) (description : string)
    (cov_limit : pyval) : QuoteRequest :=
  let created_date := date_after w 0 in
  let expiration_date := date_after w DEFAULT_POLICY_TERM_DAYS in
  mkQuoteRequest
    (mkQuote created_date expiration_date "Active"
       [ mkLocation (get args "location" (PStr "Unknown Location"))
           (get args "business_type" (PStr "Commercial Building"))
           footage ]
       [ mkLine (get args "coverage_type" (PStr "Property Insurance"))
           limit deduct
           [ mkRisk RISK_TYPE LOCATION_REFERENCE description
               [ mkCoverage (get args "coverage_type" (PStr "Property"))
                   cov_limit ] ] ]).

(** The request dictionary, its entries evaluated in the order of the
    source. *)
Definition prepare_quote_request (w : World) (args : gmap string pyval)
  : outcome QuoteRequest :=
  footage ← int_of (get args "square_footage" (PInt DEFAULT_SQUARE_FOOTAGE));
  limit ← _parse_amount (get args "coverage_limit" PNone) 1000000;
  deduct ← _parse_amount (get args "deductible" PNone) DEFAULT_DEDUCTIBLE;
  coverage ← format_val (float_str w) (get args "coverage_type" (PStr "Property"));
  business ← format_val (float_str w) (get args "business_type" (PStr "business"));
  let description := coverage +:+ " risk for " +:+ business +:+ " operation" in
  cov_limit ← _parse_amount (get args "coverage_limit" PNone) 1000000;
  Ret (quote_request_of w args footage limit deduct description cov_limit).

(** [json.dumps(quote_request, indent=2)], for the faults it has: the text
    is only logged.  The keys and the dates are strings; of the values, an
    [int] beyond the limit on the number of digits is the one that has no
    text. *)
Definition json_value (v : pyval) : outcome unit :=
  match v with
  | PInt z => _ ← int_to_str z; Ret tt
  | _ => Ret tt
  end.

Fixpoint json_each {A : Type} (f : A → outcome unit) (l : list A) : outcome unit :=
  match l with
  | [] => Ret tt
  | x :: rest => _ ← f x; json_each f rest
  end.

Definition json_location (l : Location) : outcome unit :=
  _ ← json_value (address l);
  _ ← json_value (property_type l);
  json_value (PInt (square_footage l)).

Definition json_coverage (c : Coverage) : outcome unit :=
  _ ← json_value (coverage_type c);
  json_value (coverage_limit c).

Definition json_risk (r : Risk) : outcome unit :=
  json_each json_coverage (coverages r).

Definition json_line (l : Line) : outcome unit :=
  _ ← json_value (line_type l);
  _ ← json_value (policy_limit l);
  _ ← json_value (deductible l);
  json_each json_risk (risks l).

Definition json_dumps (request : QuoteRequest) : outcome unit :=
  _ ← json_each json_location (locations (quote request));
  json_each json_line (lines (quote request)).

Definition nl2 : string := nl +:+ nl.

Definition missing_message (missing : list string) : string :=
  "❌ Error: Missing required parameters: " +:+ join ", " missing.

Definition SERVICE_UNAVAILABLE : string :=
  "❌ Error: Quote generation service is not available. Please ensure the MCP server is running.".

Definition tool_not_found_message (tools : list Tool) : string :=
  "❌ Error: Quote creation tool not found in MCP server. Available tools: "
  +:+ join ", " (List.map tool_name tools).

(** The body of the [try] statement of [async_invoke]. *)
Definition generate_quote (w : World) (self : Self) (args : gmap string pyval)
  : M event string :=
  _ ← lift (import_client w);
  match missing_params args with
  | _ :: _ => mret (missing_message (missing_params args))
  | [] =>
      _ ← call (ClientCreated (mcp_server_path self))
            (new_client w (mcp_server_path self));
      tools ← call GetTools (get_tools w);
      match tools with
      | [] => mret SERVICE_UNAVAILABLE
      | _ =>
          match find_quote_tool tools with
          | None => mret (tool_not_found_message tools)
          | Some quote_tool =>
              quote_request ← lift (prepare_quote_request w args);
              _ ← lift (json_dumps quote_request);
              _ ← lift (format_val (float_str w) (get args "business_type" PNone));
              _ ← lift (format_val (float_str w) (get args "coverage_type" PNone));
              call (ToolInvoke quote_tool quote_request)
                (tool_ainvoke w quote_tool quote_request)
          end
      end
  end.

Definition CLIENT_NOT_AVAILABLE : string :=
  "❌ Error: MCP client not available. Please install langchain-mcp-adapters.".

Definition quote_error_message (e : PyExc) : string :=
  "❌ Error generating quote: " +:+ exc_msg e +:+ nl2
  +:+ "Please ensure the MCP quote server is configured correctly.".

(** The [except ImportError] and [except Exception] clauses, in order. *)
Definition quote_error (e : PyExc) : string :=
  if is_ImportError e then CLIENT_NOT_AVAILABLE else quote_error_message e.

Definition async_invoke (w : World) (self : Self) (args : gmap string pyval)
  : M event string :=
  try_except (generate_quote w self args) (fun e => mret (quote_error e)).

Definition DEFAULT_MCP_SERVER_PATH : string :=
  "c:\POC\quote_mcp_server_simple\index.js".

(** [os.getenv("MCP_SERVER_PATH", ...)], for the environment [environ]. *)
Definition __init__ (environ : gmap string string) : Self :=
  mkSelf (default DEFAULT_MCP_SERVER_PATH (environ !! "MCP_SERVER_PATH")).

End McpQuoteGenerator.

(** ** The stand-alone client: [mcp_quote_client_example.py] *)

Module QuoteClientExample.

Import Py.

(** The selection loop of [test_mcp_quote_client] and of
    [test_simple_parameters]: the first tool whose name holds "quote", in
    any case. *)
Definition select_quote_tool (tools : list McpQuoteGenerator.Tool)
  : option McpQuoteGenerator.Tool :=
  List.find (fun tool => str_in "quote" (lower (McpQuoteGenerator.tool_name tool)))
    tools.

End QuoteClientExample.

(** ** Concrete collaborators and arguments, for the examples *)

Module Examples.

Import Py.
Local Open Scope Z_scope.

(** The float 2.5 *)
Definition two_and_a_half : spec_float := S754_finite false 5629499534213120 (-51).

(** The examples format no other float than 2.5. *)
Definition float_str (f : spec_float) : string := "2.5".

Definition notes_path : string := "/srv/app/notes.txt".
Definition notes_content : string := "Fire cover. Flood cover.".

(** A project at [/srv/app] that holds [notes.txt] and no default document;
    the splitter returns the document as one chunk, and a search returns
    every chunk of the index. *)
Definition retrieval_world : TextFileInfoProvider.World :=
  TextFileInfoProvider.mkWorld float_str "/srv/app"
    (fun p => String.prefix "/" p)
    (fun a b => a +:+ "/" +:+ b)
    (fun p => String.eqb p notes_path)
    (fun _ => Ret notes_content)
    (fun doc => Ret [doc])
    (fun _ => Ret tt)
    (fun store _ _ => Ret (TextFileInfoProvider.indexed store))
    (Ret tt).

(** The same project, with an index whose searches find nothing. *)
Definition barren_world : TextFileInfoProvider.World :=
  TextFileInfoProvider.mkWorld float_str "/srv/app"
    (fun p => String.prefix "/" p)
    (fun a b => a +:+ "/" +:+ b)
    (fun p => String.eqb p notes_path)
    (fun _ => Ret notes_content)
    (fun doc => Ret [doc])
    (fun _ => Ret tt)
    (fun _ _ _ => Ret [])
    (Ret tt).

Definition notes_documents : list TextFileInfoProvider.Document :=
  TextFileInfoProvider._create_documents_from_content retrieval_world
    notes_content notes_path.

Definition chunk (text : string) : TextFileInfoProvider.Document :=
  TextFileInfoProvider.mkDocument text
    (TextFileInfoProvider.mkMetadata notes_path "excess_specialty_lines_info"
       "insurance_documentation" None None None).

Definition two_results : list TextFileInfoProvider.Document :=
  [ chunk "  Fire cover.  "; chunk "Flood cover." ].

Definition prebuilt_store : TextFileInfoProvider.VectorStore :=
  TextFileInfoProvider.mkVectorStore two_results.

(** A custom file, a query, and two results asked for. *)
Definition custom_args : gmap string pyval :=
  <["file_path" := PStr "notes.txt"]>
    (<["query" := PStr "fire"]> (<["k" := PInt 2]> ∅)).

(** A custom file that does not exist. *)
Definition missing_file_args : gmap string pyval :=
  <["file_path" := PStr "nope.txt"]> ∅.

(** The least integer of 4301 digits. *)
Definition huge_int : Z := 10 ^ 4300.

(** A [file_path] that is an integer of 4301 digits. *)
Definition huge_file_path_args : gmap string pyval :=
  <["file_path" := PInt huge_int]> ∅.

(** An MCP server that offers two tools and answers every quote request. *)
Definition quote_world : McpQuoteGenerator.World :=
  McpQuoteGenerator.mkWorld float_str (Ret tt) (fun _ => Ret tt)
    (Ret [ McpQuoteGenerator.mkTool "list_quotes";
           McpQuoteGenerator.mkTool "Create_Quote" ])
    (fun days => if days =? 0 then "2025-03-01" else "2026-03-01")
    (fun _ _ => Ret "{'quote_id': 'Q-1001'}").

Definition quote_self : McpQuoteGenerator.Self :=
  McpQuoteGenerator.mkSelf "c:\POC\quote_mcp_server_simple\index.js".

(** [business_type] has no entry; [location] has one, the empty string. *)
Definition args_empty_location : gmap string pyval :=
  <["coverage_type" := PStr "General Liability"]>
    (<["coverage_limit" := PInt 2000000]> (<["location" := PStr EmptyString]> ∅)).

(** A coverage limit that is no number. *)
Definition args_bad_limit : gmap string pyval :=
  <["business_type" := PStr "Restaurant"]>
    (<["coverage_type" := PStr "General Liability"]>
       (<["coverage_limit" := PStr "two million"]>
          (<["location" := PStr "123 Business St"]> ∅))).

(** A deductible that is no number, with a coverage limit that is one. *)
Definition args_bad_deductible : gmap string pyval :=
  <["business_type" := PStr "Restaurant"]>
    (<["coverage_type" := PStr "General Liability"]>
       (<["coverage_limit" := PStr "$2,000,000"]>
          (<["deductible" := PStr "1k"]>
             (<["location" := PStr "123 Business St"]> ∅)))).

(** Monetary fields given as floats. *)
Definition args_float_amounts : gmap string pyval :=
  <["business_type" := PStr "Restaurant"]>
    (<["coverage_type" := PStr "General Liability"]>
       (<["coverage_limit" := PFloat two_and_a_half]>
          (<["deductible" := PFloat two_and_a_half]>
             (<["location" := PStr "123 Business St"]> ∅)))).

(** Every required parameter, and amounts that parse. *)
Definition args_complete : gmap string pyval :=
  <["business_type" := PStr "Restaurant"]>
    (<["coverage_type" := PStr "General Liability"]>
       (<["coverage_limit" := PStr "$2,000,000"]>
          (<["location" := PStr "123 Business St"]> ∅))).

(** The same, with a square footage that holds a thousands separator. *)
Definition args_bad_footage : gmap string pyval :=
  <["square_footage" := PStr "5,000"]> args_complete.

(** An MCP server whose tools do not create quotes. *)
Definition other_tools_world : McpQuoteGenerator.World :=
  McpQuoteGenerator.mkWorld float_str (Ret tt) (fun _ => Ret tt)
    (Ret [ McpQuoteGenerator.mkTool "list_quotes";
           McpQuoteGenerator.mkTool "create_policy" ])
    (fun days => if days =? 0 then "2025-03-01" else "2026-03-01")
    (fun _ _ => Ret "{}").

(** No MCP client library. *)
Definition no_client_world : McpQuoteGenerator.World :=
  McpQuoteGenerator.mkWorld float_str
    (raise ModuleNotFoundError "No module named 'langchain_mcp_adapters'")
    (fun _ => Ret tt) (Ret [])
    (fun days => if days =? 0 then "2025-03-01" else "2026-03-01")
    (fun _ _ => Ret "{}").

End Examples.

(** ** Facts about the runtime *)

Module PyFacts.

Import Py.
Local Open Scope Z_scope.

Lemma len_nonneg s : 0 <= len s.
Proof. unfold len. lia. Qed.

Lemma len_String c s : len (String c s) = 1 + len s.
Proof. unfold len. simpl String.length. lia. Qed.

Lemma len_app a b : len (a +:+ b) = len a + len b.
Proof.
  induction a as [|c a IH].
  - reflexivity.
  - change (String c a +:+ b) with (String c (a +:+ b)).
    rewrite !len_String, IH. lia.
Qed.

Lemma length_substring_0 n s :
  String.length (String.substring 0 n s) = Nat.min n (String.length s).
Proof.
  revert s. induction n as [|n IH]; intros [|c s]; simpl; auto.
Qed.

(** A slice up to a non-negative [stop] has at most [stop] characters. *)
Lemma len_slice_to_le s stop : 0 <= stop -> len (slice_to s stop) <= stop.
Proof.
  intros H. unfold slice_to, len.
  rewrite length_substring_0.
  destruct (Z.ltb_spec stop 0); lia.
Qed.

(** A number below [10 ^ k] prints in at most [k] digits. *)
Lemma len_digits_fuel fuel : forall (k : nat) n acc,
  (1 <= k)%nat -> 0 <= n < 10 ^ Z.of_nat k ->
  len (digits_fuel fuel n acc) <= Z.of_nat k + len acc.
Proof.
  induction fuel as [|fuel IH]; intros k n acc Hk Hn; simpl.
  - lia.
  - destruct (Z.ltb_spec n 10) as [Hlt|Hge].
    + rewrite len_String. lia.
    + destruct k as [|k]; [lia|].
      destruct k as [|k]; [simpl in Hn; lia|].
      etransitivity; [apply (IH (S k)); [lia|]|rewrite len_String; lia].
      split; [apply Z.div_pos; lia|].
      apply Z.div_lt_upper_bound; [lia|].
      replace (Z.of_nat (S (S k))) with (Z.succ (Z.of_nat (S k))) in Hn by lia.
      rewrite Z.pow_succ_r in Hn by lia. lia.
Qed.

Lemma len_str_int_le (k : nat) n :
  (1 <= k)%nat -> 0 <= n < 10 ^ Z.of_nat k -> len (str_int n) <= Z.of_nat k.
Proof.
  intros Hk Hn. unfold str_int.
  destruct (Z.ltb_spec n 0); [lia|].
  unfold digits. etransitivity; [apply (len_digits_fuel _ k); auto|].
  change (len EmptyString) with 0. lia.
Qed.

Lemma digit_char_value d :
  0 <= d < 10 -> is_digit (digit_char d) = true /\ ord (digit_char d) - 48 = d.
Proof.
  intros Hd.
  assert (Hcases : d = 0 \/ d = 1 \/ d = 2 \/ d = 3 \/ d = 4 \/ d = 5 \/ d = 6
                   \/ d = 7 \/ d = 8 \/ d = 9) by lia.
  repeat (destruct Hcases as [->|Hcases]; [split; reflexivity|]).
  subst d. split; reflexivity.
Qed.

(** The fuel of [digits] is enough: reading the printed digits back gives
    the number. *)
Lemma parse_digits_fuel fuel : forall n acc a b,
  (1 <= fuel)%nat -> 0 <= n < 2 ^ Z.of_nat fuel ->
  exists k, 0 < k
    /\ parse_digits (digits_fuel fuel n acc) a b = parse_digits acc (a * 10 ^ k + n) true.
Proof.
  induction fuel as [|fuel IH]; intros n acc a b Hf Hn; [lia|].
  simpl digits_fuel.
  destruct (Z.mod_pos_bound n 10) as [Hm0 Hm10]; [lia|].
  destruct (digit_char_value (n mod 10)) as [Hdig Hval]; [lia|].
  destruct (Z.ltb_spec n 10) as [Hlt|Hge].
  - exists 1. split; [lia|]. simpl parse_digits. rewrite Hdig, Hval.
    rewrite Z.mod_small by lia. f_equal. lia.
  - assert (Hpow : 2 ^ Z.of_nat (S fuel) = 2 * 2 ^ Z.of_nat fuel).
    { rewrite Nat2Z.inj_succ, Z.pow_succ_r by lia. reflexivity. }
    destruct fuel as [|fuel]; [simpl in Hn; lia|].
    destruct (IH (n / 10) (String (digit_char (n mod 10)) acc) a b) as (k & Hk & Hp).
    { lia. }
    { split; [apply Z.div_pos; lia|]. apply Z.div_lt_upper_bound; lia. }
    exists (k + 1). split; [lia|]. rewrite Hp. simpl parse_digits.
    rewrite Hdig, Hval. f_equal.
    rewrite Z.pow_add_r, Z.pow_1_r by lia.
    pose proof (Z.div_mod n 10). lia.
Qed.

Lemma digits_value n : 0 <= n -> parse_digits (digits n) 0 false = Some n.
Proof.
  intros Hn. unfold digits.
  destruct (parse_digits_fuel (S (Z.to_nat (Z.log2 n))) n EmptyString 0 false)
    as (k & _ & ->); [lia| |reflexivity].
  split; [exact Hn|].
  rewrite Nat2Z.inj_succ, Z2Nat.id by apply Z.log2_nonneg.
  destruct (Z.eq_dec n 0) as [->|Hnz]; [reflexivity|].
  apply Z.log2_spec. lia.
Qed.

(** The number of digits and the size of an integer. *)
Lemma ndigits_le (k : nat) z :
  (1 <= k)%nat -> Z.abs z < 10 ^ Z.of_nat k -> ndigits z <= Z.of_nat k.
Proof.
  intros Hk Hz. unfold ndigits.
  pose proof (len_str_int_le k (Z.abs z) Hk) as H.
  unfold str_int in H. destruct (Z.ltb_spec (Z.abs z) 0); [lia|].
  apply H. lia.
Qed.

Lemma len_digits_fuel_ge fuel : forall (k : nat) n acc,
  0 <= n < 2 ^ Z.of_nat fuel -> 10 ^ Z.of_nat k <= n ->
  Z.of_nat k + 1 + len acc <= len (digits_fuel fuel n acc).
Proof.
  induction fuel as [|fuel IH]; intros k n acc Hn Hk.
  - simpl in Hn. assert (0 < 10 ^ Z.of_nat k) by (apply Z.pow_pos_nonneg; lia). lia.
  - simpl digits_fuel.
    destruct (Z.ltb_spec n 10) as [Hlt|Hge].
    + rewrite len_String. destruct k as [|k]; [lia|].
      exfalso. rewrite Nat2Z.inj_succ, Z.pow_succ_r in Hk by lia.
      assert (0 < 10 ^ Z.of_nat k) by (apply Z.pow_pos_nonneg; lia). lia.
    + destruct k as [|k].
      * assert (Hfuel : (1 <= fuel)%nat).
        { destruct fuel; [simpl in Hn; lia|lia]. }
        pose proof (IH 0%nat (n / 10) (String (digit_char (n mod 10)) acc)) as H.
        rewrite len_String in H.
        assert (Hq : 0 <= n / 10 < 2 ^ Z.of_nat fuel).
        { split; [apply Z.div_pos; lia|].
          apply Z.div_lt_upper_bound; [lia|].
          rewrite Nat2Z.inj_succ, Z.pow_succ_r in Hn by lia. lia. }
        assert (Hq1 : 10 ^ Z.of_nat 0 <= n / 10).
        { simpl. apply Z.div_le_lower_bound; lia. }
        specialize (H Hq Hq1). lia.
      * pose proof (IH k (n / 10) (String (digit_char (n mod 10)) acc)) as H.
        rewrite len_String in H.
        assert (Hq : 0 <= n / 10 < 2 ^ Z.of_nat fuel).
        { split; [apply Z.div_pos; lia|].
          apply Z.div_lt_upper_bound; [lia|].
          rewrite Nat2Z.inj_succ, Z.pow_succ_r in Hn by lia. lia. }
        assert (Hq1 : 10 ^ Z.of_nat k <= n / 10).
        { apply Z.div_le_lower_bound; [lia|].
          rewrite Nat2Z.inj_succ, Z.pow_succ_r in Hk by lia. lia. }
        specialize (H Hq Hq1). lia.
Qed.

Lemma ndigits_gt (k : nat) z : 10 ^ Z.of_nat k <= Z.abs z -> Z.of_nat k < ndigits z.
Proof.
  intros Hz. unfold ndigits, digits.
  pose proof (len_digits_fuel_ge (S (Z.to_nat (Z.log2 (Z.abs z)))) k (Z.abs z)
                EmptyString) as H.
  change (len EmptyString) with 0 in H.
  assert (Hpos : 0 < Z.abs z).
  { assert (0 < 10 ^ Z.of_nat k) by (apply Z.pow_pos_nonneg; lia). lia. }
  assert (Hn : 0 <= Z.abs z < 2 ^ Z.of_nat (S (Z.to_nat (Z.log2 (Z.abs z))))).
  { split; [lia|].
    rewrite Nat2Z.inj_succ, Z2Nat.id by apply Z.log2_nonneg.
    apply Z.log2_spec. exact Hpos. }
  specialize (H Hn Hz). lia.
Qed.

(** The integer of the examples has more than 4300 digits. *)
Lemma huge_int_ndigits : 4300 < ndigits Examples.huge_int.
Proof.
  apply (ndigits_gt 4300). unfold Examples.huge_int.
  rewrite Z.abs_eq by (apply Z.pow_nonneg; lia).
  change (Z.of_nat 4300) with 4300. apply Z.le_refl.
Qed.

(** The length of a sequence prints in at most 19 digits. *)
Lemma len_index_le j : 0 <= j <= sys_maxsize -> len (str_int j) <= 19.
Proof.
  intros Hj. apply (len_str_int_le 19); [lia|].
  unfold sys_maxsize in Hj. lia.
Qed.

(** A [try] whose handler returns a value never raises, and makes the calls
    of its body. *)
Lemma trace_try_except_pure {E A} (body : M E A) (f : PyExc -> A) :
  trace (try_except body (fun e => mret (f e))) = trace body.
Proof. destruct body as [t [a|e]]; simpl; [reflexivity|apply app_nil_r]. Qed.


(** A [try] whose handler makes no call makes the calls of its body. *)
Lemma trace_try_except_quiet {E A} (body : M E A) (handler : PyExc -> M E A) :
  (forall e, trace (handler e) = []) ->
  trace (try_except body handler) = trace body.
Proof.
  intros Hq. destruct body as [t [a|e]]; simpl; [reflexivity|].
  specialize (Hq e). destruct (handler e) as [t' r]. simpl in *. subst t'.
  apply app_nil_r.
Qed.


(** The text of a value, when it has one, is [str_of]. *)
Lemma format_val_str_of fs v text : format_val fs v = Ret text -> text = str_of fs v.
Proof.
  destruct v as [|b|z|f|s]; simpl; try congruence.
  unfold int_to_str. destruct (_ <? _); [discriminate|congruence].
Qed.

(** Every value but an [int] has a text. *)
Lemma format_val_not_int fs v :
  (forall z, v <> PInt z) -> format_val fs v = Ret (str_of fs v).
Proof. destruct v; intros H; try reflexivity. now destruct (H z). Qed.

(** An [int] within the limit on the number of digits has a text. *)
Lemma format_val_small fs v :
  (forall z, v = PInt z -> ndigits z <= 4300) -> format_val fs v = Ret (str_of fs v).
Proof.
  destruct v as [|b|z|f|s]; intros H; try reflexivity.
  simpl. unfold int_to_str.
  destruct (Z.ltb_spec int_max_str_digits (ndigits z)) as [Hbig|_]; [|reflexivity].
  specialize (H z eq_refl). unfold int_max_str_digits in Hbig. lia.
Qed.

Lemma format_val_big fs z :
  4300 < ndigits z ->
  format_val fs (PInt z)
  = raise ValueError
      "Exceeds the limit (4300 digits) for integer string conversion; use sys.set_int_max_str_digits() to increase the limit".
Proof.
  intros H. simpl. unfold int_to_str.
  destruct (Z.ltb_spec int_max_str_digits (ndigits z)) as [_|Hsmall]; [reflexivity|].
  unfold int_max_str_digits in Hsmall. lia.
Qed.

Lemma format_val_raises fs v e :
  format_val fs v = Raise e ->
  exists z, v = PInt z /\ int_max_str_digits < ndigits z
    /\ e = mkExc ValueError
            "Exceeds the limit (4300 digits) for integer string conversion; use sys.set_int_max_str_digits() to increase the limit".
Proof.
  destruct v as [|b|z|f|s]; simpl; try discriminate.
  unfold int_to_str. destruct (Z.ltb_spec int_max_str_digits (ndigits z)); [|discriminate].
  intros [= <-]. eauto.
Qed.

End PyFacts.

(** ** Properties of the retrieval tool *)

Module RetrievalProps.

Import Py PyFacts TextFileInfoProvider.
Local Open Scope Z_scope.

(** *** The response assembler *)

Lemma weight_snoc blocks b : weight (blocks ++ [b]) = weight blocks + len b + 2.
Proof. induction blocks as [|a l IH]; simpl; lia. Qed.

Lemma len_join_cons b rest :
  len (join (nl +:+ nl) (b :: rest)) = weight (b :: rest) - 2.
Proof.
  revert b. induction rest as [|b' rest IH]; intros b.
  - change (join (nl +:+ nl) [b]) with b. simpl weight. lia.
  - change (join (nl +:+ nl) (b :: b' :: rest))
      with (b +:+ (nl +:+ nl) +:+ join (nl +:+ nl) (b' :: rest)).
    rewrite !len_app, IH.
    change (len nl) with 1. simpl weight. lia.
Qed.

Lemma len_section_header i : len (section_header i) = 17 + len (str_int (i + 1)).
Proof.
  unfold section_header. rewrite !len_app.
  change (len "--- Section ") with 12. change (len " ---") with 4.
  change (len nl) with 1. lia.
Qed.

Lemma len_response_header q : len (response_header q) = 80 + len q.
Proof.
  unfold response_header. rewrite !len_app.
  change (len nl) with 1.
  change (len "Found relevant information for '") with 32.
  change (len "' in excess and specialty lines documentation:") with 46. lia.
Qed.

(** One turn of the loop, for an integer budget. *)
Lemma format_sections_cons_int doc rest i total combined m :
  format_sections (doc :: rest) i total combined (PInt m) =
  let content := strip (page_content doc) in
  let section_content := section_header i +:+ content in
  if m <? total + len section_content + 2 then
    if 100 <? m - total - 2 then
      Ret (combined ++ [section_header i
                          +:+ (slice_to content (m - total - 2 - 20) +:+ "...")])
    else Ret combined
  else
    format_sections rest (i + 1) (total + len section_content + 2)
      (combined ++ [section_content]) (PInt m).
Proof. reflexivity. Qed.

(** The loop returns, for an integer budget; it either adds no block, or the
    blocks it adds take at most what is left of the budget, plus the digits
    [D] of a section number. *)
Lemma format_sections_int results : forall i total combined m D,
  0 <= D ->
  (forall j, i < j <= i + Z.of_nat (length results) -> len (str_int j) <= D) ->
  exists out,
    format_sections results i total combined (PInt m) = Ret out
    /\ (length out <= length combined + length results)%nat
    /\ (out = combined \/ weight out <= weight combined + (m - total) + D).
Proof.
  induction results as [|doc rest IH]; intros i total combined m D HD Hdig.
  - exists combined. simpl. repeat split; [lia | now left].
  - rewrite format_sections_cons_int. cbv zeta.
    set (content := strip (page_content doc)).
    set (sc := section_header i +:+ content).
    destruct (Z.ltb_spec m (total + len sc + 2)) as [Hover|Hfit].
    + destruct (Z.ltb_spec 100 (m - total - 2)) as [Hroom|Hnone].
      * eexists. split; [reflexivity|]. split.
        { rewrite length_app. simpl. lia. }
        right. rewrite weight_snoc, !len_app, len_section_header.
        change (len "...") with 3.
        pose proof (len_slice_to_le content (m - total - 2 - 20)) as Hcut.
        pose proof (Hdig (i + 1)) as Hd. simpl length in Hd. lia.
      * exists combined. repeat split; [lia | now left].
    + destruct (IH (i + 1) (total + len sc + 2) (combined ++ [sc]) m D HD)
        as (out & Hout & Hlen & Hw).
      { intros j Hj. apply Hdig. simpl length. lia. }
      exists out. split; [exact Hout|]. split.
      { rewrite length_app in Hlen. simpl in *. lia. }
      right. rewrite weight_snoc in Hw. destruct Hw as [->|Hw].
      * rewrite weight_snoc. lia.
      * lia.
Qed.

(** C3.  For every non-empty sequence of results and every integer
    [max_chars >= 100], the response assembler returns a string, made of
    the header, the sections and the footer, whose length is at most
    [max_chars] plus the length of the header plus the length of the
    footer.  (A Python sequence has at most [sys.maxsize] elements.) *)
Theorem C3_assemble_length_bound results query max_chars :
  results <> [] ->
  100 <= max_chars ->
  Z.of_nat (length results) <= sys_maxsize ->
  exists out sections included,
    _format_rag_results results query (PInt max_chars) = Ret out
    /\ out = response_header query +:+ sections
              +:+ response_footer included (length results)
    /\ (included <= length results)%nat
    /\ len out <= max_chars + len (response_header query)
                  + len (response_footer included (length results)).
Proof.
  intros Hne Hmax Hsize.
  destruct results as [|doc rest]; [congruence|].
  destruct (format_sections_int (doc :: rest) 0 (len (response_header query)) []
              max_chars 19) as (combined & Hrun & Hcount & Hw); [lia| |].
  { intros j Hj. apply len_index_le. lia. }
  unfold _format_rag_results. rewrite Hrun.
  eexists. exists (join (nl +:+ nl) combined), (length combined).
  split; [reflexivity|]. split; [reflexivity|].
  split; [simpl in *; lia|].
  rewrite !len_app.
  pose proof (len_response_header query) as HH.
  pose proof (len_nonneg query).
  destruct combined as [|b blocks].
  - change (len (join (nl +:+ nl) [])) with 0. lia.
  - rewrite len_join_cons. destruct Hw as [Hw|Hw]; [discriminate|].
    simpl weight in Hw at 2. lia.
Qed.

Lemma C3_witness :
  Examples.two_results <> []
  /\ 100 <= 100
  /\ Z.of_nat (length Examples.two_results) <= sys_maxsize
  /\ exists out sections included,
       _format_rag_results Examples.two_results "fire" (PInt 100) = Ret out
       /\ out = response_header "fire" +:+ sections
                 +:+ response_footer included (length Examples.two_results)
       /\ (included <= length Examples.two_results)%nat
       /\ len out <= 100 + len (response_header "fire")
                     + len (response_footer included (length Examples.two_results)).
Proof.
  assert (H1 : Examples.two_results <> []) by discriminate.
  assert (H2 : 100 <= 100) by lia.
  assert (H3 : Z.of_nat (length Examples.two_results) <= sys_maxsize)
    by (vm_compute; discriminate).
  exact (conj H1 (conj H2 (conj H3
           (C3_assemble_length_bound Examples.two_results "fire" 100 H1 H2 H3)))).
Defined.

(** A budget of 50 characters is below the header alone: no section is
    included. *)
Example budget_50_has_no_section :
  _format_rag_results Examples.two_results "fire" (PInt 50)
  = Ret (response_header "fire" +:+ response_footer 0 2).
Proof. reflexivity. Qed.

(** A budget that is no number is a fault of the assembler. *)
Example budget_of_type_str_raises :
  _format_rag_results Examples.two_results "fire" (PStr "4000")
  = raise TypeError "'>' not supported between instances of 'int' and 'str'".
Proof. reflexivity. Qed.

(** *** The calls made by the two search paths *)

(** The custom-file path makes no call, or builds its index, or builds it
    and searches it, with [k = 4]. *)
Lemma custom_body_trace w fp q s m :
  let t := trace (query_custom_file_body w fp q s m) in
  t = []
  \/ (exists docs, t = [FromDocuments TempVectorStore docs])
  \/ (exists docs built,
        _build_search_query w q s = Ret built
        /\ t = [ FromDocuments TempVectorStore docs;
                 RetrieverInvoke TempVectorStore (PInt 4)
                   (or_if_empty built CUSTOM_SEARCH_QUERY) ]).
Proof.
  unfold query_custom_file_body, lift, call.
  destruct (resolve_val w fp) as [p|e]; simpl; [|now left].
  destruct (os_path_exists w p); simpl; [|now left].
  destruct (read_text w p) as [content|e]; simpl; [|now left].
  destruct (_create_documents_from_content w content p) as [|d docs];
    simpl; [now left|].
  destruct (from_documents w (d :: docs)) as [[]|e]; simpl; [|right; left; eauto].
  destruct (_build_search_query w q s) as [built|e]; simpl; [|right; left; eauto].
  right; right. exists (d :: docs), built. split; [reflexivity|].
  destruct (retriever_ainvoke w _ _ _) as [[|r rs]|e]; simpl; try reflexivity.
  destruct (slice_to_val content m); reflexivity.
Qed.

(** The pre-built path makes no call, or one search, with the [k] it is
    given. *)
Lemma prebuilt_trace w store q s m k :
  let t := trace (search_prebuilt w store q s m k) in
  t = []
  \/ (exists built,
        _build_search_query w q s = Ret built
        /\ t = [ RetrieverInvoke SelfVectorStore k
                   (or_if_empty built DEFAULT_SEARCH_QUERY) ]).
Proof.
  unfold search_prebuilt, lift, call.
  destruct (_build_search_query w q s) as [built|e]; simpl; [|now left].
  right. exists built. split; [reflexivity|].
  destruct (retriever_ainvoke w _ _ _) as [[|r rs]|e]; simpl; reflexivity.
Qed.

(** The [except] clause of the custom-file path makes no call. *)
Lemma trace_query_custom_file w fp q s m :
  trace (_query_custom_file w fp q s m) = trace (query_custom_file_body w fp q s m).
Proof.
  unfold _query_custom_file. apply trace_try_except_quiet.
  intros e. unfold custom_file_handler, lift.
  destruct (format_val (float_str w) fp); reflexivity.
Qed.



(** Whatever the caller asks for, a search in a custom file is made with
    [k = 4]. *)
Lemma custom_search_k_is_4 w fp q s m :
  Forall (fun ev => forall which k sq, ev = RetrieverInvoke which k sq -> k = PInt 4)
    (trace (_query_custom_file w fp q s m)).
Proof.
  rewrite trace_query_custom_file.
  destruct (custom_body_trace w fp q s m) as [->|[(docs & ->)|(docs & built & _ & ->)]];
    repeat constructor; intros; congruence.
Qed.

(** A search in the pre-built index is made with the [k] of the caller. *)
Lemma prebuilt_search_uses_k w store q s m k :
  Forall (fun ev => forall which k' sq, ev = RetrieverInvoke which k' sq -> k' = k)
    (trace (search_prebuilt w store q s m k)).
Proof.
  destruct (prebuilt_trace w store q s m k) as [->|(built & _ & ->)];
    repeat constructor; intros; congruence.
Qed.

(** C1.  The claim: every invocation that reaches the search step searches
    with the [k] the caller asks for, custom files included.  The code, at
    a call with a custom file and [k = 2]: the search is made with [k = 4]. *)
Theorem C1_custom_file_search_ignores_k :
  get Examples.custom_args "k" (PInt 4) = PInt 2
  /\ trace (async_invoke Examples.retrieval_world (mkSelf None) Examples.custom_args)
     = [ FromDocuments TempVectorStore Examples.notes_documents;
         RetrieverInvoke TempVectorStore (PInt 4) "fire insurance coverage" ].
Proof. split; vm_compute; reflexivity. Qed.

(** *** The query builder *)

(** C2, as the specification states it, fails: no suffix is appended. *)
Lemma C2_counterexample :
  _build_search_query Examples.retrieval_world (PStr "fire") (PStr "coverages")
  <> Ret "coverages fire insurance coverage".
Proof. vm_compute. discriminate. Qed.

(** C2, amended.  For the query "fire" and the section "coverages" the
    builder returns "coverages fire": the parts are joined section first
    with one space, and no suffix is appended, since the marker "coverage"
    occurs in "coverages".  With a section that holds no marker, such as
    "perils", the suffix " insurance coverage" is appended. *)
Theorem C2_fire_coverages w :
  _build_search_query w (PStr "fire") (PStr "coverages") = Ret "coverages fire"
  /\ str_in "coverage" (lower "coverages fire") = true
  /\ _build_search_query w (PStr "fire") (PStr "perils")
     = Ret "perils fire insurance coverage".
Proof.
  split; [vm_compute; reflexivity|].
  split; vm_compute; reflexivity.
Qed.

(** A marker in the query: nothing is appended. *)
Example build_query_marker_present :
  _build_search_query Examples.retrieval_world (PStr "general liability coverage")
    (PStr EmptyString)
  = Ret "general liability coverage".
Proof. reflexivity. Qed.

(** C5, as the specification states it, fails: the builder returns the empty
    string, and a search in a custom file falls back on another string. *)
Lemma C5_counterexample :
  _build_search_query Examples.retrieval_world (PStr EmptyString) (PStr EmptyString)
  <> Ret "excess specialty lines insurance coverage programs"
  /\ trace (async_invoke Examples.retrieval_world (mkSelf None)
              (<["file_path" := PStr "notes.txt"]> ∅))
     = [ FromDocuments TempVectorStore Examples.notes_documents;
         RetrieverInvoke TempVectorStore (PInt 4) "information content" ].
Proof. split; vm_compute; [discriminate|reflexivity]. Qed.

(** C5, amended.  For an empty query and an empty section the builder
    returns the empty string.  The entry point then searches the pre-built
    index with the fixed string "excess specialty lines insurance coverage
    programs", and a custom file with "information content". *)
Theorem C5_empty_query_defaults :
  (forall w, _build_search_query w (PStr EmptyString) (PStr EmptyString)
             = Ret EmptyString)
  /\ (forall w store max_chars k,
        trace (search_prebuilt w store (PStr EmptyString) (PStr EmptyString) max_chars k)
        = [ RetrieverInvoke SelfVectorStore k
              "excess specialty lines insurance coverage programs" ])
  /\ (forall w file_path max_chars,
        Forall (fun ev => forall which k sq,
                  ev = RetrieverInvoke which k sq -> sq = "information content")
          (trace (_query_custom_file w file_path (PStr EmptyString)
                    (PStr EmptyString) max_chars))).
Proof.
  split; [reflexivity|]. split.
  - intros w store m k. unfold search_prebuilt, lift, call. simpl.
    destruct (retriever_ainvoke w _ _ _) as [[|r rs]|e]; simpl; reflexivity.
  - intros w fp m. rewrite trace_query_custom_file.
    destruct (custom_body_trace w fp (PStr EmptyString) (PStr EmptyString) m)
      as [->|[(docs & ->)|(docs & built & Hb & ->)]];
      repeat constructor; try (intros; congruence).
    intros which k sq [= _ _ <-]. simpl in Hb. injection Hb as <-. reflexivity.
Qed.

(** *** No results *)

(** C6, as the specification states it, fails: on an empty sequence the
    assembler returns a sentence that does not mention the query. *)
Lemma C6_counterexample :
  _format_rag_results [] "x" (PInt 4000) = Ret "No relevant information found."
  /\ str_in "x" "No relevant information found." = false.
Proof. split; reflexivity. Qed.

(** C6, amended.  On an empty sequence the assembler returns the fixed
    sentence "No relevant information found.", whatever the query and
    [max_chars]; the sentence does not mention the query.  The sentence
    that does, "No relevant information found for query: '...'", is
    returned by the entry point, when a search in the pre-built index finds
    nothing; it quotes the search string and does not depend on
    [max_chars]. *)
Theorem C6_no_results :
  (forall query max_chars,
     _format_rag_results [] query max_chars = Ret "No relevant information found.")
  /\ (forall w store query section max_chars k built,
        _build_search_query w query section = Ret built ->
        retriever_ainvoke w store k (or_if_empty built DEFAULT_SEARCH_QUERY) = Ret [] ->
        result (search_prebuilt w store query section max_chars k)
        = Ret ("No relevant information found for query: '"
               +:+ or_if_empty built DEFAULT_SEARCH_QUERY +:+ "'")).
Proof.
  split; [reflexivity|].
  intros w store q s m k built Hb Hr.
  unfold search_prebuilt, lift, call. rewrite Hb. simpl. rewrite Hr. reflexivity.
Qed.

Lemma C6_witness :
  _build_search_query Examples.barren_world (PStr "x") (PStr EmptyString)
  = Ret "x insurance coverage"
  /\ retriever_ainvoke Examples.barren_world Examples.prebuilt_store (PInt 4)
       (or_if_empty "x insurance coverage" DEFAULT_SEARCH_QUERY) = Ret []
  /\ result (search_prebuilt Examples.barren_world Examples.prebuilt_store
               (PStr "x") (PStr EmptyString) (PInt 4000) (PInt 4))
     = Ret ("No relevant information found for query: '"
            +:+ or_if_empty "x insurance coverage" DEFAULT_SEARCH_QUERY +:+ "'").
Proof.
  assert (H1 : _build_search_query Examples.barren_world (PStr "x") (PStr EmptyString)
               = Ret "x insurance coverage") by reflexivity.
  assert (H2 : retriever_ainvoke Examples.barren_world Examples.prebuilt_store (PInt 4)
                 (or_if_empty "x insurance coverage" DEFAULT_SEARCH_QUERY) = Ret [])
    by reflexivity.
  exact (conj H1 (conj H2
           (proj2 C6_no_results Examples.barren_world Examples.prebuilt_store
              (PStr "x") (PStr EmptyString) (PInt 4000) (PInt 4)
              "x insurance coverage" H1 H2))).
Defined.

(** *** The choice of the index *)




End RetrievalProps.

(** ** Properties of the quote tool *)

Module QuoteProps.

Import Py PyFacts McpQuoteGenerator.
Local Open Scope Z_scope.

(** The three answers of [int(s)]. *)
Lemma int_of_str_cases s :
  match parse_int s with
  | Parsed z => int_of_str s = Ret z
  | Invalid =>
      int_of_str s
      = raise ValueError ("invalid literal for int() with base 10: "
                          +:+ slice_to (repr_str s) 200)
  | TooLong count =>
      int_of_str s
      = raise ValueError
          ("Exceeds the limit (4300 digits) for integer string conversion: value has "
           +:+ str_int count
           +:+ " digits; use sys.set_int_max_str_digits() to increase the limit")
  end.
Proof. unfold int_of_str. destruct (parse_int s); reflexivity. Qed.

(** A fault of [int(s)] is a [ValueError]. *)
Lemma int_of_str_fault s e : int_of_str s = Raise e -> is_ImportError e = false.
Proof.
  unfold int_of_str. destruct (parse_int s); [discriminate| |]; intros [= <-]; reflexivity.
Qed.

(** The amount parser on a string: the cleaned text, read by [int]. *)
Lemma parse_amount_str s d :
  _parse_amount (PStr s) d
  = match int_of_str (amount_text s) with
    | Ret z => Ret (PInt z)
    | Raise e => Raise e
    end.
Proof. reflexivity. Qed.

(** A value that is neither an [int] nor a [str] is replaced by the
    default. *)
Lemma parse_amount_default value d :
  isinstance_int value = false -> isinstance_str value = false ->
  _parse_amount value d = Ret (PInt d).
Proof. destruct value; simpl; intros Hint Hstr; try discriminate; reflexivity. Qed.

(** When no required parameter is missing, each has a true value. *)
Lemma required_present args param :
  missing_params args = [] -> In param required_params ->
  exists v, args !! param = Some v /\ truthy v = true.
Proof.
  intros Hmiss Hin. unfold missing_params in Hmiss.
  assert (Hf : negb (truthy (get args param PNone)) = false).
  { destruct (negb (truthy (get args param PNone))) eqn:Hb; [|reflexivity].
    assert (Hx : In param (List.filter
                             (fun param => negb (truthy (get args param PNone)))
                             required_params))
      by (apply filter_In; split; assumption).
    rewrite Hmiss in Hx. destruct Hx. }
  apply negb_false_iff in Hf. unfold get in Hf.
  destruct (args !! param) as [v|]; [exists v; split; [reflexivity|exact Hf]|].
  discriminate Hf.
Qed.

(** The two texts of the log line that precedes the request were formatted
    for the risk description already. *)
Lemma prepared_formats w args request :
  missing_params args = [] ->
  prepare_quote_request w args = Ret request ->
  exists business coverage,
    format_val (float_str w) (get args "business_type" PNone) = Ret business
    /\ format_val (float_str w) (get args "coverage_type" PNone) = Ret coverage.
Proof.
  intros Hmiss Hreq.
  destruct (required_present args "business_type" Hmiss) as (vb & Hb & _);
    [simpl; auto|].
  destruct (required_present args "coverage_type" Hmiss) as (vc & Hc & _);
    [simpl; auto|].
  unfold prepare_quote_request, get in *. rewrite Hb, Hc in *. simpl in *.
  destruct (int_of _); [|discriminate]. simpl in Hreq.
  destruct (_parse_amount _ 1000000); [|discriminate]. simpl in Hreq.
  destruct (_parse_amount _ DEFAULT_DEDUCTIBLE); [|discriminate]. simpl in Hreq.
  destruct (format_val (float_str w) vc) as [coverage|]; [|discriminate].
  simpl in Hreq.
  destruct (format_val (float_str w) vb) as [business|]; [|discriminate].
  eauto.
Qed.

(** The calls made and the outcome, once the request is being prepared. *)
Lemma generate_quote_reaches_request w self args tools quote_tool :
  import_client w = Ret tt ->
  missing_params args = [] ->
  new_client w (mcp_server_path self) = Ret tt ->
  get_tools w = Ret tools ->
  find_quote_tool tools = Some quote_tool ->
  generate_quote w self args
  = match prepare_quote_request w args with
    | Ret request =>
        match json_dumps request with
        | Ret _ =>
            ([ ClientCreated (mcp_server_path self); GetTools;
               ToolInvoke quote_tool request ],
             tool_ainvoke w quote_tool request)
        | Raise e => ([ ClientCreated (mcp_server_path self); GetTools ], Raise e)
        end
    | Raise e => ([ ClientCreated (mcp_server_path self); GetTools ], Raise e)
    end.
Proof.
  intros Hi Hm Hc Hg Hf. unfold generate_quote, lift, call.
  rewrite Hi, Hm, Hc, Hg. simpl.
  destruct tools as [|t ts]; [discriminate|]. rewrite Hf.
  destruct (prepare_quote_request w args) as [request|e] eqn:Hreq; simpl;
    [|reflexivity].
  destruct (prepared_formats w args request Hm Hreq) as (b & c & -> & ->).
  destruct (json_dumps request) as [[]|e]; simpl; [|reflexivity].
  destruct (tool_ainvoke w quote_tool request); reflexivity.
Qed.

(** A fault of the amount parser on the coverage limit, or on the
    deductible once the coverage limit is parsed, is the answer of the
    entry point. *)
Lemma amount_fault_reported w self args tools quote_tool footage s e :
  import_client w = Ret tt ->
  missing_params args = [] ->
  new_client w (mcp_server_path self) = Ret tt ->
  get_tools w = Ret tools ->
  find_quote_tool tools = Some quote_tool ->
  int_of (get args "square_footage" (PInt DEFAULT_SQUARE_FOOTAGE)) = Ret footage ->
  (get args "coverage_limit" PNone = PStr s
   \/ (exists limit, _parse_amount (get args "coverage_limit" PNone) 1000000
                     = Ret limit)
      /\ get args "deductible" PNone = PStr s) ->
  int_of_str (amount_text s) = Raise e ->
  async_invoke w self args
  = ([ ClientCreated (mcp_server_path self); GetTools ],
     Ret ("❌ Error generating quote: " +:+ exc_msg e +:+ nl +:+ nl
          +:+ "Please ensure the MCP quote server is configured correctly.")).
Proof.
  intros Hi Hm Hc Hg Hf Hsq Hs Hbad. unfold async_invoke.
  rewrite (generate_quote_reaches_request w self args tools quote_tool Hi Hm Hc Hg Hf).
  unfold prepare_quote_request. rewrite Hsq.
  pose proof (int_of_str_fault _ _ Hbad) as Hne.
  destruct Hs as [Hl|[[limit Hl] Hd]].
  - rewrite Hl, parse_amount_str, Hbad. simpl.
    unfold quote_error. rewrite Hne. reflexivity.
  - rewrite Hl, Hd, parse_amount_str, Hbad. simpl.
    unfold quote_error. rewrite Hne. reflexivity.
Qed.

(** C7.  The amount parser maps "$2,000,000" to 2000000 and an integer to
    itself.  On a string it strips "$" and ",", and reads what is left as
    [int] does: the value of an integer literal is returned, and a text
    that is no integer literal, or one of more than 4300 digits, makes it
    raise [ValueError]; no default stands in for it.  The entry point
    returns the fault to the caller as an error string that holds the
    message of the fault (for a text that is no literal, its first 200
    characters as [repr] shows them), and the quote tool of the server is
    not invoked. *)
Theorem C7_monetary_parsing :
  (forall d, _parse_amount (PStr "$2,000,000") d = Ret (PInt 2000000))
  /\ (forall z d, _parse_amount (PInt z) d = Ret (PInt z))
  /\ (forall s d z,
        parse_int (amount_text s) = Parsed z ->
        _parse_amount (PStr s) d = Ret (PInt z))
  /\ (forall s d,
        parse_int (amount_text s) = Invalid ->
        _parse_amount (PStr s) d
        = raise ValueError
            ("invalid literal for int() with base 10: "
             +:+ slice_to (repr_str (amount_text s)) 200))
  /\ (forall s d count,
        parse_int (amount_text s) = TooLong count ->
        _parse_amount (PStr s) d
        = raise ValueError
            ("Exceeds the limit (4300 digits) for integer string conversion: value has "
             +:+ str_int count
             +:+ " digits; use sys.set_int_max_str_digits() to increase the limit"))
  /\ (forall w self args tools quote_tool footage s,
        import_client w = Ret tt ->
        missing_params args = [] ->
        new_client w (mcp_server_path self) = Ret tt ->
        get_tools w = Ret tools ->
        find_quote_tool tools = Some quote_tool ->
        int_of (get args "square_footage" (PInt DEFAULT_SQUARE_FOOTAGE)) = Ret footage ->
        (get args "coverage_limit" PNone = PStr s
         \/ (exists limit, _parse_amount (get args "coverage_limit" PNone) 1000000
                           = Ret limit)
            /\ get args "deductible" PNone = PStr s) ->
        parse_int (amount_text s) = Invalid ->
        async_invoke w self args
        = ([ ClientCreated (mcp_server_path self); GetTools ],
           Ret ("❌ Error generating quote: "
                +:+ "invalid literal for int() with base 10: "
                +:+ slice_to (repr_str (amount_text s)) 200 +:+ nl +:+ nl
                +:+ "Please ensure the MCP quote server is configured correctly.")))
  /\ (forall w self args tools quote_tool footage s count,
        import_client w = Ret tt ->
        missing_params args = [] ->
        new_client w (mcp_server_path self) = Ret tt ->
        get_tools w = Ret tools ->
        find_quote_tool tools = Some quote_tool ->
        int_of (get args "square_footage" (PInt DEFAULT_SQUARE_FOOTAGE)) = Ret footage ->
        (get args "coverage_limit" PNone = PStr s
         \/ (exists limit, _parse_amount (get args "coverage_limit" PNone) 1000000
                           = Ret limit)
            /\ get args "deductible" PNone = PStr s) ->
        parse_int (amount_text s) = TooLong count ->
        async_invoke w self args
        = ([ ClientCreated (mcp_server_path self); GetTools ],
           Ret ("❌ Error generating quote: "
                +:+ ("Exceeds the limit (4300 digits) for integer string conversion: value has "
                     +:+ str_int count
                     +:+ " digits; use sys.set_int_max_str_digits() to increase the limit")
                +:+ nl +:+ nl
                +:+ "Please ensure the MCP quote server is configured correctly."))).
Proof.
  split; [reflexivity|]. split; [reflexivity|].
  split.
  { intros s d z H. rewrite parse_amount_str.
    pose proof (int_of_str_cases (amount_text s)) as Hc. rewrite H in Hc.
    rewrite Hc. reflexivity. }
  split.
  { intros s d H. rewrite parse_amount_str.
    pose proof (int_of_str_cases (amount_text s)) as Hc. rewrite H in Hc.
    rewrite Hc. reflexivity. }
  split.
  { intros s d count H. rewrite parse_amount_str.
    pose proof (int_of_str_cases (amount_text s)) as Hc. rewrite H in Hc.
    rewrite Hc. reflexivity. }
  split.
  - intros w self args tools quote_tool footage s Hi Hm Hc Hg Hf Hsq Hs Hbad.
    pose proof (int_of_str_cases (amount_text s)) as Hcase. rewrite Hbad in Hcase.
    rewrite (amount_fault_reported w self args tools quote_tool footage s _
               Hi Hm Hc Hg Hf Hsq Hs Hcase).
    reflexivity.
  - intros w self args tools quote_tool footage s count Hi Hm Hc Hg Hf Hsq Hs Hbad.
    pose proof (int_of_str_cases (amount_text s)) as Hcase. rewrite Hbad in Hcase.
    rewrite (amount_fault_reported w self args tools quote_tool footage s _
               Hi Hm Hc Hg Hf Hsq Hs Hcase).
    reflexivity.
Qed.

Lemma C7_witness :
  parse_int (amount_text "two million") = Invalid
  /\ _parse_amount (PStr "two million") 1000000
     = raise ValueError "invalid literal for int() with base 10: 'two million'"
  /\ async_invoke Examples.quote_world Examples.quote_self Examples.args_bad_limit
     = ([ ClientCreated (mcp_server_path Examples.quote_self); GetTools ],
        Ret ("❌ Error generating quote: "
             +:+ "invalid literal for int() with base 10: "
             +:+ slice_to (repr_str (amount_text "two million")) 200 +:+ nl +:+ nl
             +:+ "Please ensure the MCP quote server is configured correctly.")).
Proof.
  assert (Hbad : parse_int (amount_text "two million") = Invalid) by reflexivity.
  split; [exact Hbad|].
  split; [exact (proj1 (proj2 (proj2 (proj2 C7_monetary_parsing))) _ 1000000 Hbad)|].
  refine (proj1 (proj2 (proj2 (proj2 (proj2 (proj2 C7_monetary_parsing)))))
            Examples.quote_world Examples.quote_self Examples.args_bad_limit
            _ (mkTool "Create_Quote") 10000 "two million" _ _ _ _ _ _ _ Hbad);
    try reflexivity.
  left. reflexivity.
Defined.

(** The same for a deductible that is no number: the fault is reported,
    the default 1000 is not used. *)
Example bad_deductible_is_reported :
  async_invoke Examples.quote_world Examples.quote_self Examples.args_bad_deductible
  = ([ ClientCreated (mcp_server_path Examples.quote_self); GetTools ],
     Ret ("❌ Error generating quote: "
          +:+ "invalid literal for int() with base 10: '1k'" +:+ nl +:+ nl
          +:+ "Please ensure the MCP quote server is configured correctly.")).
Proof. vm_compute. reflexivity. Qed.

(** C8, as stated, fails: a required parameter that is present and empty is
    reported as missing too. *)
Lemma C8_counterexample :
  absent_params Examples.args_empty_location = ["business_type"]
  /\ result (async_invoke Examples.quote_world Examples.quote_self
               Examples.args_empty_location)
     = Ret "❌ Error: Missing required parameters: business_type, location"
  /\ result (async_invoke Examples.quote_world Examples.quote_self
               Examples.args_empty_location)
     <> Ret ("❌ Error: Missing required parameters: "
             +:+ join ", " (absent_params Examples.args_empty_location)).
Proof.
  split; [vm_compute; reflexivity|].
  split; [vm_compute; reflexivity|].
  vm_compute. discriminate.
Qed.

(** C8, amended.  When the MCP client library is importable and one of
    [business_type], [coverage_type], [coverage_limit], [location] is
    absent from the arguments or has a false value (None, False, zero, the
    empty string), the tool returns an error string that lists exactly
    those of the four that are absent or false, in that order, and it
    makes no call: no client is created and no connection is attempted. *)
Theorem C8_missing_parameters w self args :
  import_client w = Ret tt ->
  missing_params args <> [] ->
  async_invoke w self args
  = ([], Ret ("❌ Error: Missing required parameters: "
              +:+ join ", " (missing_params args)))
  /\ (forall param,
        In param (missing_params args)
        <-> In param required_params /\ truthy (get args param PNone) = false).
Proof.
  intros Hi Hm. split.
  - unfold async_invoke, generate_quote, lift. rewrite Hi. simpl.
    destruct (missing_params args) as [|p ps]; [congruence|]. reflexivity.
  - intros param. unfold missing_params. rewrite filter_In.
    rewrite negb_true_iff. reflexivity.
Qed.

Lemma C8_witness :
  import_client Examples.quote_world = Ret tt
  /\ missing_params Examples.args_empty_location <> []
  /\ async_invoke Examples.quote_world Examples.quote_self Examples.args_empty_location
     = ([], Ret ("❌ Error: Missing required parameters: "
                 +:+ join ", " (missing_params Examples.args_empty_location))).
Proof.
  assert (H1 : import_client Examples.quote_world = Ret tt) by reflexivity.
  assert (H2 : missing_params Examples.args_empty_location <> [])
    by (vm_compute; discriminate).
  exact (conj H1 (conj H2
           (proj1 (C8_missing_parameters Examples.quote_world Examples.quote_self
                     Examples.args_empty_location H1 H2)))).
Defined.

(** C9.  For a monetary value that is neither an integer nor a string, a
    float for instance, the amount parser returns its default without
    raising: 1000000 for [coverage_limit], 1000 for [deductible].  When
    the other entries of the request are prepared without a fault (the
    square footage is converted, the coverage type and the business type
    are formatted into the risk description, and the request has a JSON
    text for the log), the request carries these defaults and is sent to
    the quote tool of the server; the caller gets the answer of that tool,
    and nothing about the amounts is reported. *)
Theorem C9_non_numeric_amount_defaults :
  (forall value d,
     isinstance_int value = false -> isinstance_str value = false ->
     _parse_amount value d = Ret (PInt d))
  /\ (forall w self args tools quote_tool footage coverage business,
        import_client w = Ret tt ->
        missing_params args = [] ->
        new_client w (mcp_server_path self) = Ret tt ->
        get_tools w = Ret tools ->
        find_quote_tool tools = Some quote_tool ->
        int_of (get args "square_footage" (PInt DEFAULT_SQUARE_FOOTAGE)) = Ret footage ->
        isinstance_int (get args "coverage_limit" PNone) = false ->
        isinstance_str (get args "coverage_limit" PNone) = false ->
        isinstance_int (get args "deductible" PNone) = false ->
        isinstance_str (get args "deductible" PNone) = false ->
        format_val (float_str w) (get args "coverage_type" (PStr "Property"))
        = Ret coverage ->
        format_val (float_str w) (get args "business_type" (PStr "business"))
        = Ret business ->
        let request :=
          quote_request_of w args footage (PInt 1000000) (PInt 1000)
            (coverage +:+ " risk for " +:+ business +:+ " operation")
            (PInt 1000000) in
        json_dumps request = Ret tt ->
        prepare_quote_request w args = Ret request
        /\ async_invoke w self args
           = ([ ClientCreated (mcp_server_path self); GetTools;
                ToolInvoke quote_tool request ],
              Ret (match tool_ainvoke w quote_tool request with
                   | Ret quote_result => quote_result
                   | Raise e =>
                       if is_ImportError e
                       then "❌ Error: MCP client not available. Please install langchain-mcp-adapters."
                       else "❌ Error generating quote: " +:+ exc_msg e +:+ nl +:+ nl
                            +:+ "Please ensure the MCP quote server is configured correctly."
                   end))).
Proof.
  split; [exact parse_amount_default|].
  intros w self args tools quote_tool footage coverage business
    Hi Hm Hc Hg Hf Hsq Hl1 Hl2 Hd1 Hd2 Hcov Hbus request Hjson.
  assert (Hreq : prepare_quote_request w args = Ret request).
  { unfold prepare_quote_request. rewrite Hsq.
    rewrite (parse_amount_default _ 1000000 Hl1 Hl2).
    rewrite (parse_amount_default _ DEFAULT_DEDUCTIBLE Hd1 Hd2).
    simpl. rewrite Hcov. simpl. rewrite Hbus. reflexivity. }
  split; [exact Hreq|].
  unfold async_invoke.
  rewrite (generate_quote_reaches_request w self args tools quote_tool Hi Hm Hc Hg Hf).
  rewrite Hreq, Hjson.
  destruct (tool_ainvoke w quote_tool request) as [r|e]; reflexivity.
Qed.

Lemma C9_witness :
  isinstance_int (PFloat Examples.two_and_a_half) = false
  /\ isinstance_str (PFloat Examples.two_and_a_half) = false
  /\ _parse_amount (PFloat Examples.two_and_a_half) 1000000 = Ret (PInt 1000000)
  /\ _parse_amount (PFloat Examples.two_and_a_half) DEFAULT_DEDUCTIBLE = Ret (PInt 1000)
  /\ prepare_quote_request Examples.quote_world Examples.args_float_amounts
     = Ret (quote_request_of Examples.quote_world Examples.args_float_amounts 10000
              (PInt 1000000) (PInt 1000)
              "General Liability risk for Restaurant operation" (PInt 1000000))
  /\ async_invoke Examples.quote_world Examples.quote_self Examples.args_float_amounts
     = ([ ClientCreated (mcp_server_path Examples.quote_self); GetTools;
          ToolInvoke (mkTool "Create_Quote")
            (quote_request_of Examples.quote_world Examples.args_float_amounts 10000
               (PInt 1000000) (PInt 1000)
               "General Liability risk for Restaurant operation" (PInt 1000000)) ],
        Ret "{'quote_id': 'Q-1001'}").
Proof.
  assert (H1 : isinstance_int (PFloat Examples.two_and_a_half) = false) by reflexivity.
  assert (H2 : isinstance_str (PFloat Examples.two_and_a_half) = false) by reflexivity.
  refine (conj H1 (conj H2
            (conj (proj1 C9_non_numeric_amount_defaults _ 1000000 H1 H2)
               (conj (proj1 C9_non_numeric_amount_defaults _ DEFAULT_DEDUCTIBLE H1 H2)
                  (proj2 C9_non_numeric_amount_defaults
                     Examples.quote_world Examples.quote_self
                     Examples.args_float_amounts _ (mkTool "Create_Quote") 10000
                     "General Liability" "Restaurant"
                     _ _ _ _ _ _ _ _ _ _ _ _ _))))); reflexivity.
Defined.

End QuoteProps.

(** ** The entry points of the two tools *)

Module EntryPoints.

Import Py PyFacts TextFileInfoProvider.
Local Open Scope Z_scope.


End EntryPoints.

(** ** More facts about the runtime *)

Module PyMoreFacts.

Import Py PyFacts.
Local Open Scope Z_scope.

Lemma app_String c a b : String c a +:+ b = String c (a +:+ b).
Proof. reflexivity. Qed.

Lemma app_empty_r a : a +:+ EmptyString = a.
Proof. induction a as [|c a IH]; [reflexivity|]. rewrite app_String, IH. reflexivity. Qed.

Lemma app_assoc_str a b c : (a +:+ b) +:+ c = a +:+ (b +:+ c).
Proof.
  induction a as [|x a IH]; [reflexivity|].
  rewrite !app_String, IH. reflexivity.
Qed.

(** *** Lower case *)

Lemma lower_app a b : lower (a +:+ b) = lower a +:+ lower b.
Proof.
  induction a as [|c a IH]; [reflexivity|].
  rewrite app_String. simpl lower. rewrite IH. reflexivity.
Qed.

(** *** Substrings *)

Lemma prefix_spec a s : String.prefix a s = true <-> exists post, s = a +:+ post.
Proof.
  revert s. induction a as [|c a IH]; intros s.
  - split; [intros _; exists s; reflexivity|intros _; destruct s; reflexivity].
  - destruct s as [|d s]; simpl.
    + split; [discriminate|intros [post H]; discriminate H].
    + destruct (ascii_dec c d) as [->|Hne].
      * rewrite IH. split; intros [post H]; exists post.
        -- rewrite app_String, H. reflexivity.
        -- rewrite app_String in H. congruence.
      * split; [discriminate|intros [post H]].
        rewrite app_String in H. congruence.
Qed.

(** [sub in s] holds exactly when [s] is some text, then [sub], then some
    text. *)
Lemma str_in_spec sub s :
  str_in sub s = true <-> exists pre post, s = pre +:+ sub +:+ post.
Proof.
  induction s as [|c s IH].
  - change (str_in sub EmptyString) with (String.prefix sub EmptyString || false).
    rewrite orb_false_r, prefix_spec. split.
    + intros [post H]. exists EmptyString, post. exact H.
    + intros (pre & post & H). destruct pre; [exists post; exact H|discriminate].
  - change (str_in sub (String c s))
      with (String.prefix sub (String c s) || str_in sub s).
    rewrite orb_true_iff, prefix_spec, IH. split.
    + intros [[post H]|(pre & post & H)].
      * exists EmptyString, post. exact H.
      * exists (String c pre), post. rewrite app_String, H. reflexivity.
    + intros (pre & post & H). destruct pre as [|d pre].
      * left. exists post. exact H.
      * right. rewrite app_String in H. injection H as _ H. eauto.
Qed.

Lemma str_in_app_l sub a b : str_in sub a = true -> str_in sub (a +:+ b) = true.
Proof.
  rewrite !str_in_spec. intros (pre & post & ->).
  exists pre, (post +:+ b). rewrite !app_assoc_str. reflexivity.
Qed.

Lemma str_in_app_r sub a b : str_in sub b = true -> str_in sub (a +:+ b) = true.
Proof.
  rewrite !str_in_spec. intros (pre & post & ->).
  exists (a +:+ pre), post. rewrite !app_assoc_str. reflexivity.
Qed.

Lemma str_in_trans a b c :
  str_in a b = true -> str_in b c = true -> str_in a c = true.
Proof.
  rewrite !str_in_spec. intros (p1 & q1 & ->) (p2 & q2 & ->).
  exists (p2 +:+ p1), (q1 +:+ q2). rewrite !app_assoc_str. reflexivity.
Qed.

(** *** Slices *)

Lemma substring_0_prefix n s : exists rest, s = String.substring 0 n s +:+ rest.
Proof.
  revert s. induction n as [|n IH]; intros [|c s]; simpl.
  - exists EmptyString. reflexivity.
  - exists (String c s). reflexivity.
  - exists EmptyString. reflexivity.
  - destruct (IH s) as [rest H]. exists rest. rewrite app_String, <- H. reflexivity.
Qed.

(** A slice [s[:stop]] is the beginning of [s], whatever [stop]. *)
Lemma slice_to_prefix s stop : exists rest, s = slice_to s stop +:+ rest.
Proof. unfold slice_to. apply substring_0_prefix. Qed.

Lemma len_slice_to s stop : 0 <= stop -> len (slice_to s stop) = Z.min stop (len s).
Proof.
  intros H. unfold slice_to, len. rewrite length_substring_0.
  destruct (Z.ltb_spec stop 0); lia.
Qed.

(** *** Replacing a character *)

Lemma replace_char_app old new a b :
  replace_char old new (a +:+ b) = replace_char old new a +:+ replace_char old new b.
Proof.
  induction a as [|c a IH]; [reflexivity|].
  rewrite app_String. simpl replace_char. rewrite IH.
  destruct (Ascii.eqb c old); [rewrite app_assoc_str|rewrite app_String]; reflexivity.
Qed.

Lemma replace_char_absent old new s :
  (forall c, In c (list_ascii_of_string s) -> c <> old) ->
  replace_char old new s = s.
Proof.
  induction s as [|c s IH]; intros H; [reflexivity|].
  simpl. destruct (Ascii.eqb_spec c old) as [->|_].
  - exfalso. apply (H old); [left; reflexivity|reflexivity].
  - rewrite IH; [reflexivity|]. intros d Hd. apply H. right. exact Hd.
Qed.

(** *** Integers as text: the round trip *)

Lemma digit_char_is_digit n : is_digit (digit_char (n mod 10)) = true.
Proof.
  destruct (Z.mod_pos_bound n 10) as [H0 H10]; [lia|].
  apply (digit_char_value (n mod 10)). lia.
Qed.

Lemma digits_fuel_all_digits fuel : forall n acc,
  (forall c, In c (list_ascii_of_string acc) -> is_digit c = true) ->
  forall c, In c (list_ascii_of_string (digits_fuel fuel n acc)) -> is_digit c = true.
Proof.
  induction fuel as [|fuel IH]; intros n acc Hacc c Hc; simpl in Hc.
  - auto.
  - assert (Hacc' : forall d, In d (list_ascii_of_string
                                      (String (digit_char (n mod 10)) acc)) ->
                              is_digit d = true).
    { intros d [<-|Hd]; [apply digit_char_is_digit|auto]. }
    destruct (n <? 10); [apply Hacc'; exact Hc|].
    apply (IH (n / 10) _ Hacc' c Hc).
Qed.

Lemma digits_all_digits n c :
  In c (list_ascii_of_string (digits n)) -> is_digit c = true.
Proof. apply digits_fuel_all_digits. intros d []. Qed.

Lemma is_digit_plain c :
  is_digit c = true ->
  isspace c = false /\ c <> "+"%char /\ c <> "-"%char /\ c <> "$"%char /\ c <> ","%char.
Proof.
  destruct c as [[] [] [] [] [] [] [] []]; intros H; try discriminate H;
    repeat split; discriminate.
Qed.

Lemma lstrip_id_head c s : isspace c = false -> lstrip (String c s) = String c s.
Proof. intros H. simpl. rewrite H. reflexivity. Qed.

Lemma rstrip_id s :
  (forall c, In c (list_ascii_of_string s) -> isspace c = false) -> rstrip s = s.
Proof.
  induction s as [|c s IH]; intros H; [reflexivity|].
  simpl. rewrite IH by (intros d Hd; apply H; right; exact Hd).
  destruct s; [|reflexivity].
  rewrite (H c) by (left; reflexivity). reflexivity.
Qed.

Lemma strip_id s :
  (forall c, In c (list_ascii_of_string s) -> isspace c = false) -> strip s = s.
Proof.
  intros H. unfold strip. destruct s as [|c s]; [reflexivity|].
  rewrite lstrip_id_head by (apply H; left; reflexivity).
  apply rstrip_id. exact H.
Qed.

Lemma is_digit_head c :
  is_digit c = true ->
  int_isspace c = false /\ c <> "+"%char /\ c <> "-"%char.
Proof.
  destruct c as [[] [] [] [] [] [] [] []]; intros H; try discriminate H;
    repeat split; discriminate.
Qed.

(** A string of digits is one run, and every character counts. *)
Lemma span_digits_all s :
  (forall c, In c (list_ascii_of_string s) -> is_digit c = true) ->
  span_digits s = (s, EmptyString).
Proof.
  induction s as [|c s IH]; intros H; [reflexivity|].
  simpl. rewrite (H c) by (left; reflexivity). simpl.
  rewrite IH by (intros d Hd; apply H; right; exact Hd). reflexivity.
Qed.

Lemma count_digits_all s :
  (forall c, In c (list_ascii_of_string s) -> is_digit c = true) ->
  count_digits s = len s.
Proof.
  induction s as [|c s IH]; intros H; [reflexivity|].
  simpl count_digits. rewrite (H c) by (left; reflexivity).
  rewrite IH by (intros d Hd; apply H; right; exact Hd).
  rewrite len_String. reflexivity.
Qed.

(** What [int()] reads in a sign followed by digits, or in digits alone. *)
Lemma parse_int_signed (negative : bool) s v :
  (forall c, In c (list_ascii_of_string s) -> is_digit c = true) ->
  parse_digits s 0 false = Some v ->
  parse_int (if negative then String "-" s else s)
  = if int_max_str_digits <? len s then TooLong (len s)
    else Parsed (if negative then - v else v).
Proof.
  intros H Hv. unfold parse_int.
  assert (Hbody : forall t, t = s ->
            (let '(run, rest) := span_digits t in
             match parse_digits run 0 false with
             | Some v0 =>
                 if int_max_str_digits <? count_digits run
                 then TooLong (count_digits run)
                 else match int_lstrip rest with
                      | EmptyString => Parsed (if negative then - v0 else v0)
                      | String _ _ => Invalid
                      end
             | None => Invalid
             end)
            = if int_max_str_digits <? len s then TooLong (len s)
              else Parsed (if negative then - v else v)).
  { intros t ->. rewrite (span_digits_all s H), Hv, (count_digits_all s H).
    destruct (_ <? _); reflexivity. }
  destruct negative.
  - simpl int_lstrip. cbv iota beta. apply Hbody. reflexivity.
  - destruct s as [|c s]; [discriminate Hv|].
    destruct (is_digit_head c) as (Hsp & Hplus & Hminus);
      [apply H; left; reflexivity|].
    simpl int_lstrip. rewrite Hsp.
    destruct c as [[] [] [] [] [] [] [] []];
      try (exfalso; apply Hplus; reflexivity);
      try (exfalso; apply Hminus; reflexivity);
      apply Hbody; reflexivity.
Qed.

(** [int(str(z)) == z], within the limit on the number of digits; beyond
    it, the text of [z] is refused. *)
Lemma parse_int_str_int z :
  parse_int (str_int z)
  = if int_max_str_digits <? ndigits z then TooLong (ndigits z) else Parsed z.
Proof.
  unfold str_int, ndigits. destruct (Z.ltb_spec z 0) as [Hneg|Hpos].
  - replace (Z.abs z) with (- z) by lia.
    rewrite (parse_int_signed true (digits (- z)) (- z)).
    + replace (- - z) with z by lia. reflexivity.
    + intros c. apply digits_all_digits.
    + apply digits_value. lia.
  - replace (Z.abs z) with z by lia.
    rewrite (parse_int_signed false (digits z) z).
    + reflexivity.
    + intros c. apply digits_all_digits.
    + apply digits_value. exact Hpos.
Qed.

Lemma str_int_plain z c :
  In c (list_ascii_of_string (str_int z)) -> c <> "$"%char /\ c <> ","%char.
Proof.
  unfold str_int. destruct (z <? 0).
  - intros [<-|Hc]; [split; discriminate|].
    apply is_digit_plain, digits_all_digits with (n := - z), Hc.
  - intros Hc. apply is_digit_plain, digits_all_digits with (n := z), Hc.
Qed.

End PyMoreFacts.

(** ** More properties of the retrieval tool *)

Module RetrievalExtras.

Import Py PyFacts PyMoreFacts TextFileInfoProvider.
Local Open Scope Z_scope.

(** *** Keywords *)

Lemma insurance_keywords_NoDup : List.NoDup insurance_keywords.
Proof.
  unfold insurance_keywords.
  repeat (apply List.NoDup_cons; [simpl; intuition discriminate|]).
  apply List.NoDup_nil.
Qed.

(** X1.  The keywords of a text are exactly the terms of the vocabulary
    that occur in the text once it is put in lower case; no term is
    reported twice. *)
Theorem extract_keywords_spec text :
  (forall kw,
     In kw (_extract_keywords text)
     <-> In kw insurance_keywords
         /\ exists pre post, lower text = pre +:+ kw +:+ post)
  /\ List.NoDup (_extract_keywords text).
Proof.
  split.
  - intros kw. unfold _extract_keywords. rewrite filter_In, str_in_spec. reflexivity.
  - apply List.NoDup_filter, insurance_keywords_NoDup.
Qed.

(** X2.  A text has every keyword of its parts. *)
Theorem extract_keywords_monotone a b kw :
  In kw (_extract_keywords a) \/ In kw (_extract_keywords b) ->
  In kw (_extract_keywords (a +:+ b)).
Proof.
  unfold _extract_keywords. rewrite !filter_In, lower_app.
  intros [[Hv Hin]|[Hv Hin]]; (split; [exact Hv|]).
  - apply str_in_app_l, Hin.
  - apply str_in_app_r, Hin.
Qed.

Lemma extract_keywords_monotone_witness :
  (In "umbrella" (_extract_keywords "Umbrella cover")
   \/ In "umbrella" (_extract_keywords " and crime"))
  /\ In "umbrella" (_extract_keywords ("Umbrella cover" +:+ " and crime")).
Proof.
  assert (H : In "umbrella" (_extract_keywords "Umbrella cover")
              \/ In "umbrella" (_extract_keywords " and crime"))
    by (left; vm_compute; auto).
  exact (conj H (extract_keywords_monotone _ _ _ H)).
Defined.

(** X3.  When a term is found, so is every term of the vocabulary that
    occurs in it: "liability" with "cyber liability", for instance. *)
Theorem extract_keywords_subsumed text small big :
  In small insurance_keywords ->
  str_in small big = true ->
  In big (_extract_keywords text) ->
  In small (_extract_keywords text).
Proof.
  unfold _extract_keywords. rewrite !filter_In.
  intros Hv Hsub [_ Hbig]. split; [exact Hv|].
  exact (str_in_trans _ _ _ Hsub Hbig).
Qed.

Lemma extract_keywords_subsumed_witness :
  In "liability" insurance_keywords
  /\ str_in "liability" "cyber liability" = true
  /\ In "cyber liability" (_extract_keywords "Cyber Liability cover")
  /\ In "liability" (_extract_keywords "Cyber Liability cover").
Proof.
  assert (H1 : In "liability" insurance_keywords) by (simpl; auto 10).
  assert (H2 : str_in "liability" "cyber liability" = true) by reflexivity.
  assert (H3 : In "cyber liability" (_extract_keywords "Cyber Liability cover"))
    by (vm_compute; auto).
  exact (conj H1 (conj H2 (conj H3
           (extract_keywords_subsumed _ _ _ H1 H2 H3)))).
Defined.

(** *** Chunks *)

(** X4.  The documents made from a content are the chunks of the splitter,
    in its order: the text and the metadata of each chunk are kept, and
    chunk number [i] (from 0) gets [chunk_id = i], the length of its text
    as [chunk_size], and the keywords of its text.  When the splitter
    fails there is no document. *)
Theorem create_documents_spec w content source_path :
  let doc := mkDocument content
               (mkMetadata source_path "excess_specialty_lines_info"
                  "insurance_documentation" None None None) in
  (forall chunks,
     split_documents w doc = Ret chunks ->
     length (_create_documents_from_content w content source_path) = length chunks
     /\ forall (i : nat) chunk,
          chunks !! i = Some chunk ->
          _create_documents_from_content w content source_path !! i
          = Some (mkDocument (page_content chunk)
                    (mkMetadata (source (metadata chunk)) (doc_type (metadata chunk))
                       (content_type (metadata chunk))
                       (Some (Z.of_nat i))
                       (Some (len (page_content chunk)))
                       (Some (_extract_keywords (page_content chunk))))))
  /\ (forall e, split_documents w doc = Raise e ->
                _create_documents_from_content w content source_path = []).
Proof.
  intros doc. split.
  - intros chunks H. unfold _create_documents_from_content. fold doc. rewrite H.
    split; [apply length_imap|].
    intros i chunk Hi. rewrite list_lookup_imap, Hi. reflexivity.
  - intros e H. unfold _create_documents_from_content. fold doc. rewrite H.
    reflexivity.
Qed.

Lemma create_documents_spec_witness :
  split_documents Examples.retrieval_world
    (mkDocument Examples.notes_content
       (mkMetadata Examples.notes_path "excess_specialty_lines_info"
          "insurance_documentation" None None None))
  = Ret [ mkDocument Examples.notes_content
            (mkMetadata Examples.notes_path "excess_specialty_lines_info"
               "insurance_documentation" None None None) ]
  /\ length (_create_documents_from_content Examples.retrieval_world
               Examples.notes_content Examples.notes_path) = 1%nat.
Proof.
  split; [reflexivity|].
  exact (proj1 (proj1 (create_documents_spec Examples.retrieval_world
                         Examples.notes_content Examples.notes_path)
                  _ eq_refl)).
Defined.

(** *** The pre-built index *)

(** X5.  The constructor makes the embeddings client outside every [try]
    statement: when that raises, the constructor raises the same fault and
    makes no call.  Otherwise it raises nothing, whatever the other
    collaborators do, and calls the embedding index at most once.  A store
    it leaves in [self.vector_store] is never empty: it holds the chunks of
    the default document, and its construction succeeded.  When it leaves
    none, it made no call, or the one call it made failed. *)
Theorem init_spec w :
  (forall e, new_embeddings w = Raise e -> __init__ w = ([], Raise e))
  /\ (new_embeddings w = Ret tt ->
      exists self,
        result (__init__ w) = Ret self
        /\ match vector_store self with
           | Some store =>
               indexed store <> []
               /\ (exists content,
                     read_text w (resolve w DEFAULT_FILE_PATH) = Ret content
                     /\ indexed store
                        = _create_documents_from_content w content
                            (resolve w DEFAULT_FILE_PATH))
               /\ from_documents w (indexed store) = Ret tt
               /\ trace (__init__ w) = [FromDocuments SelfVectorStore (indexed store)]
           | None =>
               trace (__init__ w) = []
               \/ exists docs e,
                    from_documents w docs = Raise e
                    /\ trace (__init__ w) = [FromDocuments SelfVectorStore docs]
           end).
Proof.
  split.
  { intros e He. unfold __init__, lift. rewrite He. reflexivity. }
  intros Hemb.
  unfold __init__, _initialize_vector_store, lift, call. rewrite Hemb. simpl.
  destruct (os_path_exists w (resolve w DEFAULT_FILE_PATH)); simpl;
    [|eexists; split; [reflexivity|left; reflexivity]].
  destruct (read_text w (resolve w DEFAULT_FILE_PATH)) as [content|e] eqn:Hread;
    simpl; [|eexists; split; [reflexivity|left; reflexivity]].
  destruct (_create_documents_from_content w content (resolve w DEFAULT_FILE_PATH))
    as [|d docs] eqn:Hdocs; simpl;
    [eexists; split; [reflexivity|left; reflexivity]|].
  destruct (from_documents w (d :: docs)) as [[]|e] eqn:Hbuild; simpl.
  - eexists. split; [reflexivity|]. simpl.
    split; [discriminate|]. split; [|split; [exact Hbuild|reflexivity]].
    exists content. split; [reflexivity|]. symmetry. exact Hdocs.
  - eexists. split; [reflexivity|]. simpl. right. eauto.
Qed.

Lemma init_spec_witness :
  new_embeddings Examples.retrieval_world = Ret tt
  /\ exists self,
       result (__init__ Examples.retrieval_world) = Ret self
       /\ match vector_store self with
          | Some store =>
              indexed store <> []
              /\ (exists content,
                    read_text Examples.retrieval_world
                      (resolve Examples.retrieval_world DEFAULT_FILE_PATH)
                    = Ret content
                    /\ indexed store
                       = _create_documents_from_content Examples.retrieval_world
                           content
                           (resolve Examples.retrieval_world DEFAULT_FILE_PATH))
              /\ from_documents Examples.retrieval_world (indexed store) = Ret tt
              /\ trace (__init__ Examples.retrieval_world)
                 = [FromDocuments SelfVectorStore (indexed store)]
          | None =>
              trace (__init__ Examples.retrieval_world) = []
              \/ exists docs e,
                   from_documents Examples.retrieval_world docs = Raise e
                   /\ trace (__init__ Examples.retrieval_world)
                      = [FromDocuments SelfVectorStore docs]
          end.
Proof.
  assert (H : new_embeddings Examples.retrieval_world = Ret tt) by reflexivity.
  exact (conj H (proj2 (init_spec Examples.retrieval_world) H)).
Defined.

(** The default path: [file_path] is absent, false, or the literal. *)
Lemma default_path_iff v :
  truthy v && ne_str v DEFAULT_FILE_PATH = false
  <-> truthy v = false \/ v = PStr DEFAULT_FILE_PATH.
Proof.
  destruct v as [|b|z|f|p].
  1-4: unfold ne_str; rewrite andb_true_r;
       split; [intros H; left; exact H|intros [H|H]; [exact H|discriminate H]].
  simpl.
  destruct (String.eqb p EmptyString);
    destruct (String.eqb_spec p DEFAULT_FILE_PATH) as [Heq|Hne];
    simpl; intuition (try discriminate; try congruence).
Qed.

(** X6.  When the embeddings client is made and the default document does
    not exist, the constructor makes no call and leaves no store, and every
    invocation that names no custom file then returns the "not
    initialized" message, again without a call. *)
Theorem missing_default_document w args :
  new_embeddings w = Ret tt ->
  os_path_exists w (resolve w DEFAULT_FILE_PATH) = false ->
  (truthy (get args "file_path" PNone) = false
   \/ get args "file_path" PNone = PStr DEFAULT_FILE_PATH) ->
  exists self,
    __init__ w = ([], Ret self)
    /\ async_invoke w self args = ([], Ret NOT_INITIALIZED).
Proof.
  intros Hemb Hex Hpath. apply default_path_iff in Hpath.
  exists (mkSelf None). split.
  - unfold __init__, _initialize_vector_store, lift. rewrite Hemb, Hex. reflexivity.
  - unfold async_invoke. rewrite Hpath. reflexivity.
Qed.

Lemma missing_default_document_witness :
  new_embeddings Examples.retrieval_world = Ret tt
  /\ os_path_exists Examples.retrieval_world
    (resolve Examples.retrieval_world DEFAULT_FILE_PATH) = false
  /\ (truthy (get (∅ : gmap string pyval) "file_path" PNone) = false
      \/ get (∅ : gmap string pyval) "file_path" PNone = PStr DEFAULT_FILE_PATH)
  /\ exists self,
       __init__ Examples.retrieval_world = ([], Ret self)
       /\ async_invoke Examples.retrieval_world self ∅ = ([], Ret NOT_INITIALIZED).
Proof.
  assert (H0 : new_embeddings Examples.retrieval_world = Ret tt) by reflexivity.
  assert (H1 : os_path_exists Examples.retrieval_world
                 (resolve Examples.retrieval_world DEFAULT_FILE_PATH) = false)
    by reflexivity.
  assert (H2 : truthy (get (∅ : gmap string pyval) "file_path" PNone) = false
               \/ get (∅ : gmap string pyval) "file_path" PNone
                  = PStr DEFAULT_FILE_PATH) by (left; reflexivity).
  exact (conj H0 (conj H1 (conj H2
           (missing_default_document Examples.retrieval_world ∅ H0 H1 H2)))).
Defined.

(** X7.  An invocation that names no custom file builds no index: its only
    call, if any, is one search of the pre-built store, with the [k] of the
    caller ([4] when absent), passed on as it is. *)
Theorem default_path_calls w self args :
  (truthy (get args "file_path" PNone) = false
   \/ get args "file_path" PNone = PStr DEFAULT_FILE_PATH) ->
  trace (async_invoke w self args) = []
  \/ exists search_query,
       trace (async_invoke w self args)
       = [RetrieverInvoke SelfVectorStore (get args "k" (PInt 4)) search_query].
Proof.
  intros Hpath. apply default_path_iff in Hpath.
  unfold async_invoke. rewrite Hpath.
  destruct (vector_store self) as [store|]; [|left; reflexivity].
  rewrite trace_try_except_pure.
  destruct (RetrievalProps.prebuilt_trace w store
              (get args "query" (PStr EmptyString))
              (get args "section" (PStr EmptyString))
              (get args "max_chars" (PInt 4000)) (get args "k" (PInt 4)))
    as [->|(built & _ & ->)]; eauto.
Qed.

Lemma default_path_calls_witness :
  (truthy (get (<["k" := PInt 7]> ∅ : gmap string pyval) "file_path" PNone) = false
   \/ get (<["k" := PInt 7]> ∅ : gmap string pyval) "file_path" PNone
      = PStr DEFAULT_FILE_PATH)
  /\ trace (async_invoke Examples.retrieval_world
              (mkSelf (Some Examples.prebuilt_store)) (<["k" := PInt 7]> ∅))
     = [RetrieverInvoke SelfVectorStore (PInt 7) DEFAULT_SEARCH_QUERY].
Proof.
  assert (H : truthy (get (<["k" := PInt 7]> ∅ : gmap string pyval) "file_path" PNone)
              = false
              \/ get (<["k" := PInt 7]> ∅ : gmap string pyval) "file_path" PNone
                 = PStr DEFAULT_FILE_PATH) by (left; reflexivity).
  split; [exact H|].
  destruct (default_path_calls Examples.retrieval_world
              (mkSelf (Some Examples.prebuilt_store)) (<["k" := PInt 7]> ∅) H)
    as [Hnone|[sq Hone]].
  - vm_compute in Hnone. discriminate Hnone.
  - vm_compute. reflexivity.
Defined.

(** *** Custom files *)

(** X8.  A custom file that does not exist is reported by its resolved
    path (the project root joined to a relative name), and no call is
    made. *)
Theorem custom_file_not_found w self args p :
  args !! "file_path" = Some (PStr p) ->
  p <> EmptyString ->
  p <> DEFAULT_FILE_PATH ->
  os_path_exists w (resolve w p) = false ->
  async_invoke w self args
  = ([], Ret ("Error: File not found at path: " +:+ resolve w p)).
Proof.
  intros Hp Hne Hnd Hex. unfold async_invoke, get. rewrite Hp. simpl.
  destruct (String.eqb_spec p EmptyString) as [|_]; [congruence|].
  destruct (String.eqb_spec p DEFAULT_FILE_PATH) as [|_]; [congruence|].
  simpl. unfold _query_custom_file, query_custom_file_body, lift. simpl.
  rewrite Hex. reflexivity.
Qed.

Lemma custom_file_not_found_witness :
  Examples.missing_file_args !! "file_path" = Some (PStr "nope.txt")
  /\ async_invoke Examples.retrieval_world (mkSelf None) Examples.missing_file_args
     = ([], Ret ("Error: File not found at path: "
                 +:+ resolve Examples.retrieval_world "nope.txt")).
Proof.
  assert (H : Examples.missing_file_args !! "file_path" = Some (PStr "nope.txt"))
    by reflexivity.
  split; [exact H|].
  apply (custom_file_not_found Examples.retrieval_world (mkSelf None)
           Examples.missing_file_args "nope.txt" H);
    [discriminate | discriminate | reflexivity].
Defined.

(** X9.  A [file_path] that is true and no string (a number, say) makes
    no call.  It is reported as a read error that names its type, unless
    it is an integer of more than 4300 digits: the [except] clause then
    fails to format it for the log, and the invocation raises
    [ValueError]. *)
Theorem custom_file_path_not_a_string w self args v :
  args !! "file_path" = Some v ->
  truthy v = true ->
  isinstance_str v = false ->
  ((forall z, v = PInt z -> ndigits z <= 4300) ->
   async_invoke w self args
   = ([], Ret ("Error reading file: expected str, bytes or os.PathLike object, not "
               +:+ type_name v)))
  /\ (forall z, v = PInt z -> 4300 < ndigits z ->
      async_invoke w self args
      = ([], raise ValueError
               "Exceeds the limit (4300 digits) for integer string conversion; use sys.set_int_max_str_digits() to increase the limit")).
Proof.
  intros Hv Ht Hs. unfold async_invoke, get. rewrite Hv. simpl. rewrite Ht.
  split.
  - intros Hsmall. destruct v as [|b|z|f|p]; try discriminate; try reflexivity.
    unfold ne_str. simpl.
    unfold _query_custom_file, query_custom_file_body, custom_file_handler, lift.
    simpl. unfold int_to_str.
    destruct (Z.ltb_spec int_max_str_digits (ndigits z)) as [Hbig|_]; [|reflexivity].
    specialize (Hsmall z eq_refl). unfold int_max_str_digits in Hbig. lia.
  - intros z -> Hbig. simpl.
    unfold _query_custom_file, query_custom_file_body, custom_file_handler, lift.
    simpl resolve_val. rewrite (format_val_big _ _ Hbig). reflexivity.
Qed.

Lemma custom_file_path_not_a_string_witness :
  (<["file_path" := PInt 5]> ∅ : gmap string pyval) !! "file_path" = Some (PInt 5)
  /\ async_invoke Examples.retrieval_world (mkSelf None) (<["file_path" := PInt 5]> ∅)
     = ([], Ret "Error reading file: expected str, bytes or os.PathLike object, not int")
  /\ Examples.huge_file_path_args !! "file_path" = Some (PInt Examples.huge_int)
  /\ 4300 < ndigits Examples.huge_int
  /\ async_invoke Examples.retrieval_world (mkSelf None) Examples.huge_file_path_args
     = ([], raise ValueError
              "Exceeds the limit (4300 digits) for integer string conversion; use sys.set_int_max_str_digits() to increase the limit").
Proof.
  assert (H : (<["file_path" := PInt 5]> ∅ : gmap string pyval) !! "file_path"
              = Some (PInt 5)) by reflexivity.
  assert (Hsmall : forall z, PInt 5 = PInt z -> ndigits z <= 4300).
  { intros z [= <-]. vm_compute. discriminate. }
  assert (H' : Examples.huge_file_path_args !! "file_path"
               = Some (PInt Examples.huge_int)) by reflexivity.
  pose proof huge_int_ndigits as Hbig.
  split; [exact H|].
  split; [exact (proj1 (custom_file_path_not_a_string Examples.retrieval_world
                          (mkSelf None) _ (PInt 5) H eq_refl eq_refl) Hsmall)|].
  split; [exact H'|]. split; [exact Hbig|].
  exact (proj2 (custom_file_path_not_a_string Examples.retrieval_world
                  (mkSelf None) _ (PInt Examples.huge_int) H' eq_refl eq_refl)
           _ eq_refl Hbig).
Defined.

(** X10.  When the search of a custom file finds nothing, the answer is the
    raw content of the file, cut to its first [max_chars] characters, under
    a line that names the file. *)
Theorem custom_file_fallback w p query section max_chars content built :
  os_path_exists w (resolve w p) = true ->
  read_text w (resolve w p) = Ret content ->
  _create_documents_from_content w content (resolve w p) <> [] ->
  from_documents w (_create_documents_from_content w content (resolve w p)) = Ret tt ->
  _build_search_query w query section = Ret built ->
  retriever_ainvoke w
    (mkVectorStore (_create_documents_from_content w content (resolve w p)))
    (PInt 4) (or_if_empty built CUSTOM_SEARCH_QUERY) = Ret [] ->
  0 <= max_chars ->
  result (_query_custom_file w (PStr p) query section (PInt max_chars))
  = Ret ("Content from " +:+ resolve w p +:+ ":" +:+ nl +:+ nl
         +:+ slice_to content max_chars)
  /\ (exists rest, content = slice_to content max_chars +:+ rest)
  /\ len (slice_to content max_chars) = Z.min max_chars (len content).
Proof.
  intros Hex Hread Hdocs Hbuild Hq Hfind Hm.
  split; [|split; [apply slice_to_prefix|apply len_slice_to, Hm]].
  unfold _query_custom_file, query_custom_file_body, lift, call. simpl.
  rewrite Hex. simpl. rewrite Hread. simpl.
  destruct (_create_documents_from_content w content (resolve w p)) as [|d docs];
    [congruence|].
  rewrite Hbuild. simpl. rewrite Hq. simpl. rewrite Hfind. reflexivity.
Qed.

Lemma custom_file_fallback_witness :
  0 <= 10
  /\ result (_query_custom_file Examples.barren_world (PStr "notes.txt")
               (PStr "fire") (PStr EmptyString) (PInt 10))
     = Ret ("Content from " +:+ resolve Examples.barren_world "notes.txt"
            +:+ ":" +:+ nl +:+ nl +:+ slice_to Examples.notes_content 10).
Proof.
  assert (Hm : 0 <= 10) by lia.
  split; [exact Hm|].
  refine (proj1 (custom_file_fallback Examples.barren_world "notes.txt"
                   (PStr "fire") (PStr EmptyString) 10 Examples.notes_content
                   "fire insurance coverage" _ _ _ _ _ _ Hm));
    try reflexivity.
  vm_compute. discriminate.
Defined.

(** *** The search string *)

Lemma build_query_strings w q s :
  _build_search_query w (PStr q) (PStr s)
  = match (if String.eqb s EmptyString then [] else [s])
          ++ (if String.eqb q EmptyString then [] else [q]) with
    | [] => Ret EmptyString
    | parts =>
        let search_query := join " " parts in
        if existsb (fun term => str_in term (lower search_query)) marker_terms
        then Ret search_query
        else Ret (search_query +:+ " insurance coverage")
    end.
Proof.
  destruct s as [|c s], q as [|d q];
    cbv -[existsb marker_terms str_in lower join String.append];
    try reflexivity;
    match goal with |- context [existsb ?f ?l] => destruct (existsb f l) end;
    reflexivity.
Qed.

Lemma has_marker_suffix a :
  existsb (fun term => str_in term (lower (a +:+ " insurance coverage")))
    marker_terms = true.
Proof.
  simpl existsb. rewrite lower_app.
  rewrite (str_in_app_r "insurance" (lower a)) by reflexivity. reflexivity.
Qed.

Lemma join_space_nonempty parts :
  parts <> [] -> (forall p, In p parts -> p <> EmptyString) ->
  join " " parts <> EmptyString.
Proof.
  destruct parts as [|p [|p' rest]]; intros Hne Hall; [congruence| |].
  - apply Hall. left. reflexivity.
  - change (join " " (p :: p' :: rest)) with (p +:+ " " +:+ join " " (p' :: rest)).
    destruct p; [|discriminate]. exfalso. apply (Hall EmptyString); [left|]; reflexivity.
Qed.

(** X11.  For a query and a section that are strings the builder raises
    nothing.  Its result is empty exactly when both are empty; otherwise it
    holds one of the marker terms "insurance", "coverage", "liability",
    "property" (in any case), and building again from the result changes
    nothing. *)
Theorem build_query_postcondition w q s :
  exists r,
    _build_search_query w (PStr q) (PStr s) = Ret r
    /\ (r = EmptyString <-> q = EmptyString /\ s = EmptyString)
    /\ (r <> EmptyString ->
        existsb (fun term => str_in term (lower r)) marker_terms = true)
    /\ _build_search_query w (PStr r) (PStr EmptyString) = Ret r.
Proof.
  rewrite build_query_strings.
  assert (Hparts : exists parts,
            (if String.eqb s EmptyString then [] else [s])
            ++ (if String.eqb q EmptyString then [] else [q]) = parts
            /\ (parts = [] <-> q = EmptyString /\ s = EmptyString)
            /\ forall p, In p parts -> p <> EmptyString).
  { eexists. split; [reflexivity|].
    destruct (String.eqb_spec s EmptyString) as [Hs|Hs];
      destruct (String.eqb_spec q EmptyString) as [Hq|Hq]; simpl;
      (split; [split; [intros H; try discriminate H; auto
                      |intros [H1 H2]; congruence]
              |intros p Hp; simpl in Hp; intuition congruence]). }
  destruct Hparts as (parts & -> & Hnil & Hall).
  assert (Hagain : forall r,
            r <> EmptyString ->
            existsb (fun term => str_in term (lower r)) marker_terms = true ->
            _build_search_query w (PStr r) (PStr EmptyString) = Ret r).
  { intros r Hr Hm. rewrite build_query_strings.
    destruct (String.eqb_spec r EmptyString) as [|_]; [congruence|].
    change (String.eqb EmptyString EmptyString) with true. cbv iota.
    simpl app. cbv iota zeta. change (join " " [r]) with r.
    rewrite Hm. reflexivity. }
  destruct parts as [|p ps] eqn:Hp.
  - exists EmptyString. split; [reflexivity|]. split; [|split].
    + split; [intros _; apply Hnil; reflexivity|reflexivity].
    + congruence.
    + reflexivity.
  - assert (Hjoin : join " " (p :: ps) <> EmptyString)
      by (apply join_space_nonempty; [discriminate|exact Hall]).
    assert (Hnot : ~ (q = EmptyString /\ s = EmptyString))
      by (intros H; apply Hnil in H; discriminate H).
    cbv zeta.
    destruct (existsb _ marker_terms) eqn:Hm.
    + exists (join " " (p :: ps)). split; [reflexivity|].
      split; [split; [congruence|tauto]|]. split; [intros _; exact Hm|].
      apply Hagain; assumption.
    + exists (join " " (p :: ps) +:+ " insurance coverage").
      assert (Hr : join " " (p :: ps) +:+ " insurance coverage" <> EmptyString).
      { destruct (join " " (p :: ps)); [congruence|discriminate]. }
      split; [reflexivity|].
      split; [split; [congruence|tauto]|].
      split; [intros _; apply has_marker_suffix|].
      apply Hagain; [exact Hr|apply has_marker_suffix].
Qed.

(** X12.  A section that is true is formatted into the search string as
    its text, whatever its type: the text comes first, then the query,
    and the suffix is appended when the two hold no marker.  A section
    that is an integer of more than 4300 digits has no text, and a query
    that is true and no string cannot be joined: each is a fault of the
    builder, which the invocation returns as an error string, and no
    search is made. *)
Theorem build_query_types w :
  (forall q section,
     truthy section = true ->
     (forall z, section = PInt z -> ndigits z <= 4300) ->
     _build_search_query w (PStr q) section
     = let joined :=
         join " " (str_of (float_str w) section
                   :: (if String.eqb q EmptyString then [] else [q])) in
       Ret (if existsb (fun term => str_in term (lower joined)) marker_terms
            then joined else joined +:+ " insurance coverage"))
  /\ (forall query z,
        4300 < ndigits z ->
        _build_search_query w query (PInt z)
        = raise ValueError
            "Exceeds the limit (4300 digits) for integer string conversion; use sys.set_int_max_str_digits() to increase the limit"
        /\ forall store max_chars k,
             try_except (search_prebuilt w store query (PInt z) max_chars k)
               (fun e => mret (retrieval_error e))
             = ([], Ret "Error retrieving information: Exceeds the limit (4300 digits) for integer string conversion; use sys.set_int_max_str_digits() to increase the limit"))
  /\ (forall query section,
        truthy query = true -> isinstance_str query = false ->
        (forall z, section = PInt z -> ndigits z <= 4300) ->
        let i := if truthy section then 1 else 0 in
        _build_search_query w query section
        = raise TypeError ("sequence item " +:+ str_int i
                           +:+ ": expected str instance, "
                           +:+ type_name query +:+ " found")
        /\ forall store max_chars k,
             try_except (search_prebuilt w store query section max_chars k)
               (fun e => mret (retrieval_error e))
             = ([], Ret ("Error retrieving information: sequence item "
                         +:+ str_int i +:+ ": expected str instance, "
                         +:+ type_name query +:+ " found"))).
Proof.
  split; [|split].
  - intros q section Ht Hsmall. unfold _build_search_query.
    rewrite Ht, (format_val_small _ _ Hsmall).
    destruct q as [|c q].
    + cbv -[existsb marker_terms str_in lower join String.append str_of float_str].
      match goal with |- context [existsb ?f ?l] => destruct (existsb f l) end;
        reflexivity.
    + cbv -[existsb marker_terms str_in lower join String.append str_of float_str].
      match goal with |- context [existsb ?f ?l] => destruct (existsb f l) end;
        reflexivity.
  - intros query z Hbig.
    assert (Ht : truthy (PInt z) = true).
    { simpl. destruct (Z.eqb_spec z 0) as [->|_]; [|reflexivity].
      exfalso. vm_compute in Hbig. discriminate Hbig. }
    assert (Hb : _build_search_query w query (PInt z)
                 = raise ValueError
                     "Exceeds the limit (4300 digits) for integer string conversion; use sys.set_int_max_str_digits() to increase the limit").
    { unfold _build_search_query. rewrite Ht, (format_val_big _ _ Hbig). reflexivity. }
    split; [exact Hb|].
    intros store max_chars k. unfold search_prebuilt, lift. rewrite Hb. reflexivity.
  - intros query section Ht Hs Hsmall i.
    assert (Hb : _build_search_query w query section
                 = raise TypeError ("sequence item " +:+ str_int i
                                    +:+ ": expected str instance, "
                                    +:+ type_name query +:+ " found")).
    { unfold _build_search_query, i. rewrite Ht, (format_val_small _ _ Hsmall).
      destruct (truthy section); destruct query; try discriminate; reflexivity. }
    split; [exact Hb|].
    intros store max_chars k. unfold search_prebuilt, lift. rewrite Hb. reflexivity.
Qed.

Lemma build_query_types_witness :
  truthy (PInt 7) = true
  /\ _build_search_query Examples.retrieval_world (PStr "fire") (PInt 7)
     = Ret "7 fire insurance coverage"
  /\ 4300 < ndigits Examples.huge_int
  /\ _build_search_query Examples.retrieval_world (PStr "fire")
       (PInt Examples.huge_int)
     = raise ValueError
         "Exceeds the limit (4300 digits) for integer string conversion; use sys.set_int_max_str_digits() to increase the limit"
  /\ truthy (PInt 42) = true
  /\ isinstance_str (PInt 42) = false
  /\ _build_search_query Examples.retrieval_world (PInt 42) (PStr "programs")
     = raise TypeError "sequence item 1: expected str instance, int found".
Proof.
  assert (Hsmall : forall z, PInt 7 = PInt z -> ndigits z <= 4300).
  { intros z [= <-]. vm_compute. discriminate. }
  assert (Hstr : forall z, PStr "programs" = PInt z -> ndigits z <= 4300)
    by discriminate.
  pose proof huge_int_ndigits as Hbig.
  split; [reflexivity|].
  split; [exact (proj1 (build_query_types Examples.retrieval_world)
                   "fire" (PInt 7) eq_refl Hsmall)|].
  split; [exact Hbig|].
  split; [exact (proj1 (proj1 (proj2 (build_query_types Examples.retrieval_world))
                          (PStr "fire") Examples.huge_int Hbig))|].
  split; [reflexivity|]. split; [reflexivity|].
  exact (proj1 (proj2 (proj2 (build_query_types Examples.retrieval_world))
                  (PInt 42) (PStr "programs") eq_refl eq_refl Hstr)).
Defined.

(** *** The response assembler, continued *)

Lemma weight_nonneg blocks : 0 <= weight blocks.
Proof. induction blocks as [|b l IH]; simpl; [lia|]. pose proof (len_nonneg b). lia. Qed.

Lemma format_sections_fit results : forall i total combined m,
  total + weight (full_blocks i results) <= m ->
  format_sections results i total combined (PInt m)
  = Ret (combined ++ full_blocks i results).
Proof.
  induction results as [|doc rest IH]; intros i total combined m Hfit.
  - simpl. rewrite app_nil_r. reflexivity.
  - rewrite RetrievalProps.format_sections_cons_int. cbv zeta.
    simpl full_blocks in *. simpl weight in Hfit.
    pose proof (weight_nonneg (full_blocks (i + 1) rest)).
    destruct (Z.ltb_spec m (total + len (section_header i +:+ strip (page_content doc)) + 2));
      [lia|].
    rewrite IH by lia. rewrite <- app_assoc. reflexivity.
Qed.

(** X13.  When the header and all the sections, each with its two
    separator characters, fit in [max_chars], the response holds every
    section in full, in rank order, and the footer counts them all. *)
Theorem assemble_all_when_fits results query max_chars :
  results <> [] ->
  len (response_header query) + weight (full_blocks 0 results) <= max_chars ->
  _format_rag_results results query (PInt max_chars)
  = Ret (response_header query +:+ join (nl +:+ nl) (full_blocks 0 results)
         +:+ response_footer (length results) (length results)).
Proof.
  intros Hne Hfit. destruct results as [|doc rest]; [congruence|].
  unfold _format_rag_results. rewrite format_sections_fit by exact Hfit.
  simpl app. simpl mbind.
  assert (Hlen : forall i l, length (full_blocks i l) = length l).
  { intros i l. revert i. induction l as [|d l IHl]; intros i; simpl; [|rewrite IHl];
      reflexivity. }
  rewrite Hlen. reflexivity.
Qed.

Lemma assemble_all_when_fits_witness :
  Examples.two_results <> []
  /\ len (response_header "fire") + weight (full_blocks 0 Examples.two_results) <= 4000
  /\ _format_rag_results Examples.two_results "fire" (PInt 4000)
     = Ret (response_header "fire"
            +:+ join (nl +:+ nl) (full_blocks 0 Examples.two_results)
            +:+ response_footer 2 2).
Proof.
  assert (H1 : Examples.two_results <> []) by discriminate.
  assert (H2 : len (response_header "fire")
               + weight (full_blocks 0 Examples.two_results) <= 4000)
    by (vm_compute; discriminate).
  exact (conj H1 (conj H2 (assemble_all_when_fits _ "fire" 4000 H1 H2))).
Defined.

(** The loop returns, for an integer budget.  The sections it adds are those
    of the first results, in full, then at most one section cut short and
    closed by "...". *)
Lemma format_sections_shape results : forall i total combined m,
  exists out (j : nat),
    format_sections results i total combined (PInt m) = Ret out
    /\ (j <= length results)%nat
    /\ (out = combined ++ full_blocks i (take j results)
        \/ exists doc cut rest,
             results !! j = Some doc
             /\ strip (page_content doc) = cut +:+ rest
             /\ out = combined ++ full_blocks i (take j results)
                      ++ [section_header (i + Z.of_nat j) +:+ (cut +:+ "...")]).
Proof.
  induction results as [|doc rest IH]; intros i total combined m.
  - exists combined, 0%nat. split; [reflexivity|].
    split; [reflexivity|]. left. simpl. rewrite app_nil_r. reflexivity.
  - rewrite RetrievalProps.format_sections_cons_int. cbv zeta.
    destruct (m <? total + len (section_header i +:+ strip (page_content doc)) + 2).
    + destruct (100 <? m - total - 2).
      * eexists. exists 0%nat. split; [reflexivity|]. split; [simpl; lia|].
        right. destruct (slice_to_prefix (strip (page_content doc))
                           (m - total - 2 - 20)) as [tail Htail].
        exists doc, (slice_to (strip (page_content doc)) (m - total - 2 - 20)), tail.
        split; [reflexivity|]. split; [exact Htail|].
        simpl. rewrite Z.add_0_r. reflexivity.
      * exists combined, 0%nat. split; [reflexivity|]. split; [simpl; lia|].
        left. simpl. rewrite app_nil_r. reflexivity.
    + destruct (IH (i + 1)
                  (total + len (section_header i +:+ strip (page_content doc)) + 2)
                  (combined ++ [section_header i +:+ strip (page_content doc)]) m)
        as (out & j & Hrun & Hj & Hshape).
      exists out, (S j). split; [exact Hrun|]. split; [simpl; lia|].
      replace (i + Z.of_nat (S j)) with (i + 1 + Z.of_nat j) by lia.
      simpl take. simpl full_blocks. simpl lookup.
      destruct Hshape as [->|(d & cut & tail & Hd & Hcut & ->)].
      * left. rewrite <- app_assoc. reflexivity.
      * right. exists d, cut, tail. split; [exact Hd|]. split; [exact Hcut|].
        rewrite <- app_assoc. reflexivity.
Qed.

(** X14.  For an integer [max_chars] and at least one result, the response
    is the header, then the sections of the first [j] results in full and in
    rank order, then at most one more section, that of the next result, cut
    to a beginning of its text and closed by "...", then the footer, which
    counts the sections that are there. *)
Theorem assemble_shape results query max_chars :
  results <> [] ->
  exists (j : nat) last,
    (j <= length results)%nat
    /\ (last = []
        \/ exists doc cut rest,
             results !! j = Some doc
             /\ strip (page_content doc) = cut +:+ rest
             /\ last = [section_header (Z.of_nat j) +:+ (cut +:+ "...")])
    /\ _format_rag_results results query (PInt max_chars)
       = Ret (response_header query
              +:+ join (nl +:+ nl) (full_blocks 0 (take j results) ++ last)
              +:+ response_footer (length (full_blocks 0 (take j results) ++ last))
                    (length results)).
Proof.
  intros Hne.
  destruct (format_sections_shape results 0 (len (response_header query)) []
              max_chars) as (out & j & Hrun & Hj & Hshape).
  destruct results as [|doc rest]; [congruence|].
  unfold _format_rag_results. rewrite Hrun. simpl mbind.
  destruct Hshape as [->|(d & cut & tail & Hd & Hcut & ->)].
  - exists j, []. split; [exact Hj|]. split; [left; reflexivity|].
    rewrite app_nil_r. reflexivity.
  - exists j, [section_header (Z.of_nat j) +:+ (cut +:+ "...")].
    split; [exact Hj|].
    split; [right; exists d, cut, tail; repeat split; assumption|]. reflexivity.
Qed.

Lemma assemble_shape_witness :
  Examples.two_results <> []
  /\ exists (j : nat) last,
       (j <= length Examples.two_results)%nat
       /\ _format_rag_results Examples.two_results "fire" (PInt 4000)
          = Ret (response_header "fire"
                 +:+ join (nl +:+ nl)
                       (full_blocks 0 (take j Examples.two_results) ++ last)
                 +:+ response_footer
                       (length (full_blocks 0 (take j Examples.two_results) ++ last))
                       (length Examples.two_results)).
Proof.
  assert (H : Examples.two_results <> []) by discriminate.
  split; [exact H|].
  destruct (assemble_shape Examples.two_results "fire" 4000 H)
    as (j & last & Hj & _ & Hout).
  exists j, last. split; [exact Hj|exact Hout].
Defined.

(** X15.  A budget too small for the header and the shortest section
    (twenty characters more than the header) gives a response with no
    section at all: the header, which alone may be longer than the budget,
    and the footer. *)
Theorem assemble_small_budget results query max_chars :
  results <> [] ->
  max_chars < len (response_header query) + 20 ->
  _format_rag_results results query (PInt max_chars)
  = Ret (response_header query +:+ response_footer 0 (length results)).
Proof.
  intros Hne Hsmall. destruct results as [|doc rest]; [congruence|].
  unfold _format_rag_results.
  rewrite RetrievalProps.format_sections_cons_int. cbv zeta.
  assert (Hblock : 18 <= len (section_header 0 +:+ strip (page_content doc))).
  { rewrite len_app, RetrievalProps.len_section_header.
    change (len (str_int (0 + 1))) with 1.
    pose proof (len_nonneg (strip (page_content doc))). lia. }
  destruct (Z.ltb_spec max_chars
              (len (response_header query)
               + len (section_header 0 +:+ strip (page_content doc)) + 2)); [|lia].
  destruct (Z.ltb_spec 100 (max_chars - len (response_header query) - 2)); [lia|].
  reflexivity.
Qed.

Lemma assemble_small_budget_witness :
  Examples.two_results <> []
  /\ 50 < len (response_header "fire") + 20
  /\ _format_rag_results Examples.two_results "fire" (PInt 50)
     = Ret (response_header "fire" +:+ response_footer 0 2).
Proof.
  assert (H1 : Examples.two_results <> []) by discriminate.
  assert (H2 : 50 < len (response_header "fire") + 20) by (vm_compute; reflexivity).
  exact (conj H1 (conj H2 (assemble_small_budget _ "fire" 50 H1 H2))).
Defined.

End RetrievalExtras.

(** ** More properties of the quote tool *)

Module QuoteExtras.

Import Py PyFacts PyMoreFacts McpQuoteGenerator.
Local Open Scope Z_scope.

(** *** Amounts *)

Lemma amount_text_app a b : amount_text (a +:+ b) = amount_text a +:+ amount_text b.
Proof. unfold amount_text. rewrite !replace_char_app. reflexivity. Qed.

Lemma amount_text_plain s :
  (forall c, In c (list_ascii_of_string s) -> c <> "$"%char /\ c <> ","%char) ->
  amount_text s = s.
Proof.
  intros H. unfold amount_text.
  rewrite (replace_char_absent "$") by (intros c Hc; apply H, Hc).
  apply replace_char_absent. intros c Hc. apply H, Hc.
Qed.

(** X16.  The amount parser reads back every integer of at most 4300
    digits from its decimal text, with or without a leading "$".  (The
    text of a longer integer is refused by [int], as [parse_int_str_int]
    shows.) *)
Theorem parse_amount_round_trip z dflt :
  ndigits z <= 4300 ->
  _parse_amount (PStr (str_int z)) dflt = Ret (PInt z)
  /\ _parse_amount (PStr ("$" +:+ str_int z)) dflt = Ret (PInt z).
Proof.
  intros Hsmall.
  assert (Hplain : amount_text (str_int z) = str_int z)
    by (apply amount_text_plain, str_int_plain).
  assert (Hparse : parse_int (str_int z) = Parsed z).
  { rewrite parse_int_str_int.
    destruct (Z.ltb_spec int_max_str_digits (ndigits z)) as [Hbig|_]; [|reflexivity].
    unfold int_max_str_digits in Hbig. lia. }
  split; unfold _parse_amount, int_of_str; simpl isinstance_int; cbv iota.
  - rewrite Hplain, Hparse. reflexivity.
  - rewrite amount_text_app, Hplain.
    change (amount_text "$" +:+ str_int z) with (str_int z).
    rewrite Hparse. reflexivity.
Qed.

Lemma parse_amount_round_trip_witness :
  ndigits 2000000 <= 4300
  /\ _parse_amount (PStr (str_int 2000000)) 1000000 = Ret (PInt 2000000)
  /\ _parse_amount (PStr ("$" +:+ str_int 2000000)) 1000000 = Ret (PInt 2000000).
Proof.
  assert (H : ndigits 2000000 <= 4300) by (vm_compute; discriminate).
  exact (conj H (parse_amount_round_trip 2000000 1000000 H)).
Defined.

(** X17.  A "$" or a "," is ignored wherever it stands in a monetary
    string: a string with one more of them parses to the same amount, or
    to a fault all the same. *)
Theorem parse_amount_ignores_separators a b dflt :
  amount_text (a +:+ "," +:+ b) = amount_text (a +:+ b)
  /\ amount_text (a +:+ "$" +:+ b) = amount_text (a +:+ b)
  /\ (forall z, _parse_amount (PStr (a +:+ b)) dflt = Ret (PInt z) ->
                _parse_amount (PStr (a +:+ "," +:+ b)) dflt = Ret (PInt z)
                /\ _parse_amount (PStr (a +:+ "$" +:+ b)) dflt = Ret (PInt z)).
Proof.
  assert (Hc : amount_text (a +:+ "," +:+ b) = amount_text (a +:+ b))
    by (rewrite !amount_text_app; reflexivity).
  assert (Hd : amount_text (a +:+ "$" +:+ b) = amount_text (a +:+ b))
    by (rewrite !amount_text_app; reflexivity).
  split; [exact Hc|]. split; [exact Hd|].
  intros z. unfold _parse_amount. simpl isinstance_int. cbv iota.
  rewrite Hc, Hd. auto.
Qed.

Lemma parse_amount_ignores_separators_witness :
  _parse_amount (PStr ("2" +:+ "000")) 1000000 = Ret (PInt 2000)
  /\ _parse_amount (PStr ("2" +:+ "," +:+ "000")) 1000000 = Ret (PInt 2000)
  /\ _parse_amount (PStr ("2" +:+ "$" +:+ "000")) 1000000 = Ret (PInt 2000).
Proof.
  assert (H : _parse_amount (PStr ("2" +:+ "000")) 1000000 = Ret (PInt 2000))
    by reflexivity.
  exact (conj H (proj2 (proj2 (parse_amount_ignores_separators "2" "000" 1000000))
                   2000 H)).
Defined.

(** *** The calls of an invocation *)

Lemma find_quote_tool_Some tools tool :
  find_quote_tool tools = Some tool ->
  In tool tools
  /\ str_in "quote" (lower (tool_name tool)) = true
  /\ str_in "create" (lower (tool_name tool)) = true.
Proof.
  intros H. apply List.find_some in H. destruct H as [Hin Hb].
  apply andb_true_iff in Hb. tauto.
Qed.

(** The guarded body, step by step: the calls made so far and the outcome
    at each point where it can end. *)
Lemma generate_quote_outline w self args :
  generate_quote w self args
  = match import_client w with
    | Raise e => ([], Raise e)
    | Ret _ =>
        match missing_params args with
        | _ :: _ => ([], Ret (missing_message (missing_params args)))
        | [] =>
            match new_client w (mcp_server_path self) with
            | Raise e => ([ClientCreated (mcp_server_path self)], Raise e)
            | Ret _ =>
                match get_tools w with
                | Raise e => ([ClientCreated (mcp_server_path self); GetTools], Raise e)
                | Ret tools =>
                    ([ClientCreated (mcp_server_path self); GetTools]
                     ++ match tools with
                        | [] => []
                        | _ =>
                            match find_quote_tool tools with
                            | None => []
                            | Some quote_tool =>
                                match prepare_quote_request w args with
                                | Raise _ => []
                                | Ret request =>
                                    match json_dumps request with
                                    | Raise _ => []
                                    | Ret _ => [ToolInvoke quote_tool request]
                                    end
                                end
                            end
                        end,
                     match tools with
                     | [] => Ret SERVICE_UNAVAILABLE
                     | _ =>
                         match find_quote_tool tools with
                         | None => Ret (tool_not_found_message tools)
                         | Some quote_tool =>
                             match prepare_quote_request w args with
                             | Raise e => Raise e
                             | Ret request =>
                                 match json_dumps request with
                                 | Raise e => Raise e
                                 | Ret _ => tool_ainvoke w quote_tool request
                                 end
                             end
                         end
                     end)
                end
            end
        end
    end.
Proof.
  unfold generate_quote, lift, call.
  destruct (import_client w) as [[]|e]; simpl; [|reflexivity].
  destruct (missing_params args) as [|p ps] eqn:Hmiss; simpl; [|reflexivity].
  destruct (new_client w (mcp_server_path self)) as [[]|e]; simpl; [|reflexivity].
  destruct (get_tools w) as [tools|e]; simpl; [|reflexivity].
  remember (find_quote_tool tools) as found eqn:Hfind.
  destruct tools as [|t ts]; [reflexivity|].
  destruct found as [quote_tool|]; [|reflexivity].
  destruct (prepare_quote_request w args) as [request|e] eqn:Hreq; simpl;
    [|reflexivity].
  destruct (QuoteProps.prepared_formats w args request Hmiss Hreq)
    as (b & c & -> & ->).
  destruct (json_dumps request) as [[]|e]; simpl; [|reflexivity].
  destruct (tool_ainvoke w quote_tool request); reflexivity.
Qed.

(** X18.  An invocation creates at most one client, lists the tools at most
    once and sends at most one request, in that order.  A request is sent
    only when no required parameter is missing, to a tool of the server
    whose name holds "quote" and "create" (in any case), and it is the
    request prepared from the arguments. *)
Theorem quote_calls w self args :
  trace (async_invoke w self args) = []
  \/ trace (async_invoke w self args) = [ClientCreated (mcp_server_path self)]
  \/ trace (async_invoke w self args)
     = [ClientCreated (mcp_server_path self); GetTools]
  \/ exists tools quote_tool request,
       missing_params args = []
       /\ get_tools w = Ret tools
       /\ In quote_tool tools
       /\ str_in "quote" (lower (tool_name quote_tool)) = true
       /\ str_in "create" (lower (tool_name quote_tool)) = true
       /\ prepare_quote_request w args = Ret request
       /\ trace (async_invoke w self args)
          = [ClientCreated (mcp_server_path self); GetTools;
             ToolInvoke quote_tool request].
Proof.
  unfold async_invoke. rewrite trace_try_except_pure, generate_quote_outline.
  destruct (import_client w) as [[]|e]; simpl; [|now left].
  destruct (missing_params args) as [|p ps] eqn:Hmiss; simpl; [|now left].
  destruct (new_client w (mcp_server_path self)) as [[]|e]; simpl;
    [|right; left; reflexivity].
  destruct (get_tools w) as [tools|e] eqn:Htools; simpl;
    [|right; right; left; reflexivity].
  remember (find_quote_tool tools) as found eqn:Hfind. symmetry in Hfind.
  destruct tools as [|t ts]; [right; right; left; reflexivity|].
  destruct found as [quote_tool|]; [|right; right; left; reflexivity].
  destruct (prepare_quote_request w args) as [request|e] eqn:Hreq;
    [|right; right; left; reflexivity].
  destruct (json_dumps request) as [[]|e]; [|right; right; left; reflexivity].
  right; right; right. exists (t :: ts), quote_tool, request.
  destruct (find_quote_tool_Some _ _ Hfind) as (Hin & Hq & Hc).
  repeat (split; [assumption || reflexivity|]).
  reflexivity.
Qed.

(** A request is sent only when no parameter is missing, and it is the
    request prepared from the arguments. *)
Lemma tool_invoke_inv w self args tool request :
  In (ToolInvoke tool request) (trace (async_invoke w self args)) ->
  missing_params args = [] /\ prepare_quote_request w args = Ret request.
Proof.
  unfold async_invoke. rewrite trace_try_except_pure, generate_quote_outline.
  destruct (import_client w) as [[]|e]; simpl; [|tauto].
  destruct (missing_params args) as [|p ps]; simpl; [|tauto].
  destruct (new_client w (mcp_server_path self)) as [[]|e]; simpl;
    [|intuition discriminate].
  destruct (get_tools w) as [tools|e]; simpl; [|intuition discriminate].
  remember (find_quote_tool tools) as found eqn:Hfind.
  destruct tools as [|t ts]; [simpl; intuition discriminate|].
  destruct found as [quote_tool|]; [|simpl; intuition discriminate].
  destruct (prepare_quote_request w args) as [prepared|e];
    [|simpl; intuition discriminate].
  destruct (json_dumps prepared) as [[]|e]; [|simpl; intuition discriminate].
  simpl. intros [H|[H|[H|[]]]]; try discriminate H; injection H as _ <-;
    split; reflexivity.
Qed.

(** X19.  Every request that is sent carries the values of the caller: the
    address is the [location] argument, the property type the
    [business_type], the line type and the coverage type the
    [coverage_type]; the fallback texts of the source ("Unknown Location",
    "Commercial Building", "Property Insurance", ...) never appear.  The
    policy limit of the line and the limit of its one coverage are the same
    parsed [coverage_limit]; the quote is "Active", created today, and
    expires 365 days later. *)
Theorem sent_request w self args tool request :
  In (ToolInvoke tool request) (trace (async_invoke w self args)) ->
  exists location business coverage footage limit deduct,
    args !! "location" = Some location
    /\ args !! "business_type" = Some business
    /\ args !! "coverage_type" = Some coverage
    /\ int_of (get args "square_footage" (PInt 10000)) = Ret footage
    /\ _parse_amount (get args "coverage_limit" PNone) 1000000 = Ret limit
    /\ _parse_amount (get args "deductible" PNone) 1000 = Ret deduct
    /\ request
       = mkQuoteRequest
           (mkQuote (date_after w 0) (date_after w 365) "Active"
              [ mkLocation location business footage ]
              [ mkLine coverage limit deduct
                  [ mkRisk "General Business Risk" "LOC-001"
                      (str_of (float_str w) coverage +:+ " risk for "
                       +:+ str_of (float_str w) business +:+ " operation")
                      [ mkCoverage coverage limit ] ] ]).
Proof.
  intros Hin. destruct (tool_invoke_inv w self args tool request Hin) as [Hmiss Hreq].
  destruct (QuoteProps.required_present args "location" Hmiss) as (location & Hl & _);
    [simpl; auto|].
  destruct (QuoteProps.required_present args "business_type" Hmiss) as (business & Hb & _);
    [simpl; auto|].
  destruct (QuoteProps.required_present args "coverage_type" Hmiss) as (coverage & Hc & _);
    [simpl; auto|].
  unfold prepare_quote_request in Hreq.
  destruct (int_of (get args "square_footage" (PInt DEFAULT_SQUARE_FOOTAGE)))
    as [footage|e] eqn:Hsq; [|discriminate Hreq].
  simpl in Hreq.
  destruct (_parse_amount (get args "coverage_limit" PNone) 1000000)
    as [limit|e] eqn:Hlim; [|discriminate Hreq].
  simpl in Hreq.
  destruct (_parse_amount (get args "deductible" PNone) DEFAULT_DEDUCTIBLE)
    as [deduct|e] eqn:Hded; [|discriminate Hreq].
  simpl in Hreq.
  destruct (format_val (float_str w) (get args "coverage_type" (PStr "Property")))
    as [ctext|e] eqn:Hct; [|discriminate Hreq].
  simpl in Hreq.
  destruct (format_val (float_str w) (get args "business_type" (PStr "business")))
    as [btext|e] eqn:Hbt; [|discriminate Hreq].
  simpl in Hreq. injection Hreq as <-.
  apply format_val_str_of in Hct, Hbt. subst ctext btext.
  exists location, business, coverage, footage, limit, deduct.
  split; [exact Hl|]. split; [exact Hb|]. split; [exact Hc|].
  split; [first [exact Hsq|reflexivity]|].
  split; [first [exact Hlim|reflexivity]|].
  split; [first [exact Hded|reflexivity]|].
  unfold quote_request_of, get. rewrite Hl, Hb, Hc. reflexivity.
Qed.


Lemma sent_request_witness :
  In (ToolInvoke (mkTool "Create_Quote")
        (quote_request_of Examples.quote_world Examples.args_complete 10000
           (PInt 2000000) (PInt 1000)
           "General Liability risk for Restaurant operation" (PInt 2000000)))
    (trace (async_invoke Examples.quote_world (__init__ ∅) Examples.args_complete))
  /\ exists location business coverage footage limit deduct,
       Examples.args_complete !! "location" = Some location
       /\ Examples.args_complete !! "business_type" = Some business
       /\ Examples.args_complete !! "coverage_type" = Some coverage
       /\ int_of (get Examples.args_complete "square_footage" (PInt 10000))
          = Ret footage
       /\ _parse_amount (get Examples.args_complete "coverage_limit" PNone) 1000000
          = Ret limit
       /\ _parse_amount (get Examples.args_complete "deductible" PNone) 1000
          = Ret deduct
       /\ quote_request_of Examples.quote_world Examples.args_complete 10000
            (PInt 2000000) (PInt 1000)
            "General Liability risk for Restaurant operation" (PInt 2000000)
          = mkQuoteRequest
              (mkQuote (date_after Examples.quote_world 0)
                 (date_after Examples.quote_world 365) "Active"
                 [ mkLocation location business footage ]
                 [ mkLine coverage limit deduct
                     [ mkRisk "General Business Risk" "LOC-001"
                         (str_of (float_str Examples.quote_world) coverage
                          +:+ " risk for "
                          +:+ str_of (float_str Examples.quote_world) business
                          +:+ " operation")
                         [ mkCoverage coverage limit ] ] ]).
Proof.
  assert (H : In (ToolInvoke (mkTool "Create_Quote")
                    (quote_request_of Examples.quote_world Examples.args_complete
                       10000 (PInt 2000000) (PInt 1000)
                       "General Liability risk for Restaurant operation"
                       (PInt 2000000)))
                (trace (async_invoke Examples.quote_world (__init__ ∅)
                          Examples.args_complete)))
    by (vm_compute; auto).
  exact (conj H (sent_request Examples.quote_world (__init__ ∅)
                   Examples.args_complete _ _ H)).
Defined.

(** *** Faults before the request *)

(** X20.  When the MCP client library cannot be imported, the tool says so
    and makes no call, whatever the arguments: the import comes before the
    check of the required parameters. *)
Theorem client_library_missing w self args e :
  import_client w = Raise e ->
  is_ImportError e = true ->
  async_invoke w self args
  = ([], Ret "❌ Error: MCP client not available. Please install langchain-mcp-adapters.").
Proof.
  intros Hi He. unfold async_invoke, generate_quote, lift. rewrite Hi. simpl.
  unfold quote_error. rewrite He. reflexivity.
Qed.

Lemma client_library_missing_witness :
  import_client Examples.no_client_world
  = Raise (mkExc ModuleNotFoundError "No module named 'langchain_mcp_adapters'")
  /\ async_invoke Examples.no_client_world Examples.quote_self ∅
     = ([], Ret "❌ Error: MCP client not available. Please install langchain-mcp-adapters.").
Proof.
  assert (H : import_client Examples.no_client_world
              = Raise (mkExc ModuleNotFoundError
                         "No module named 'langchain_mcp_adapters'")) by reflexivity.
  exact (conj H (client_library_missing Examples.no_client_world Examples.quote_self
                   ∅ _ H eq_refl)).
Defined.

(** X21.  When the server offers no tool, the tool reports that the service
    is not available; when it offers tools but none whose name holds
    "quote" and "create", the tool reports that, with the names of all
    the tools it was offered, in order.  In both cases nothing is sent. *)
Theorem no_quote_tool w self args tools :
  import_client w = Ret tt ->
  missing_params args = [] ->
  new_client w (mcp_server_path self) = Ret tt ->
  get_tools w = Ret tools ->
  find_quote_tool tools = None ->
  async_invoke w self args
  = ([ClientCreated (mcp_server_path self); GetTools],
     Ret (match tools with
          | [] => "❌ Error: Quote generation service is not available. Please ensure the MCP server is running."
          | _ => "❌ Error: Quote creation tool not found in MCP server. Available tools: "
                 +:+ join ", " (List.map tool_name tools)
          end)).
Proof.
  intros Hi Hm Hc Hg Hf. unfold async_invoke, generate_quote, lift, call.
  rewrite Hi, Hm, Hc, Hg. simpl. rewrite Hf.
  destruct tools; reflexivity.
Qed.

Lemma no_quote_tool_witness :
  find_quote_tool [mkTool "list_quotes"; mkTool "create_policy"] = None
  /\ async_invoke Examples.other_tools_world Examples.quote_self Examples.args_complete
     = ([ClientCreated (mcp_server_path Examples.quote_self); GetTools],
        Ret ("❌ Error: Quote creation tool not found in MCP server. Available tools: "
             +:+ join ", " ["list_quotes"; "create_policy"])).
Proof.
  assert (H : find_quote_tool [mkTool "list_quotes"; mkTool "create_policy"] = None)
    by reflexivity.
  split; [exact H|].
  apply (no_quote_tool Examples.other_tools_world Examples.quote_self
           Examples.args_complete [mkTool "list_quotes"; mkTool "create_policy"]);
    reflexivity.
Defined.

(** X22.  The square footage is converted by [int] as it is: in a string,
    "$" and "," are not stripped as they are in the monetary fields.  A
    string that [int] refuses is reported as a fault, with the message of
    [int] (for a string that is no integer literal, the first 200
    characters of its [repr]), before the monetary fields are looked at,
    and nothing is sent. *)
Theorem square_footage_fault w self args tools quote_tool s :
  import_client w = Ret tt ->
  missing_params args = [] ->
  new_client w (mcp_server_path self) = Ret tt ->
  get_tools w = Ret tools ->
  find_quote_tool tools = Some quote_tool ->
  args !! "square_footage" = Some (PStr s) ->
  (parse_int s = Invalid ->
   async_invoke w self args
   = ([ClientCreated (mcp_server_path self); GetTools],
      Ret ("❌ Error generating quote: "
           +:+ "invalid literal for int() with base 10: "
           +:+ slice_to (repr_str s) 200
           +:+ nl +:+ nl
           +:+ "Please ensure the MCP quote server is configured correctly.")))
  /\ (forall count,
        parse_int s = TooLong count ->
        async_invoke w self args
        = ([ClientCreated (mcp_server_path self); GetTools],
           Ret ("❌ Error generating quote: "
                +:+ ("Exceeds the limit (4300 digits) for integer string conversion: value has "
                     +:+ str_int count
                     +:+ " digits; use sys.set_int_max_str_digits() to increase the limit")
                +:+ nl +:+ nl
                +:+ "Please ensure the MCP quote server is configured correctly."))).
Proof.
  intros Hi Hm Hc Hg Hf Hs. unfold async_invoke.
  rewrite (QuoteProps.generate_quote_reaches_request w self args tools quote_tool
             Hi Hm Hc Hg Hf).
  unfold prepare_quote_request, get. rewrite Hs. simpl.
  unfold int_of_str.
  split; [intros Hbad|intros count Hbad]; rewrite Hbad; reflexivity.
Qed.

Lemma square_footage_fault_witness :
  Examples.args_bad_footage !! "square_footage" = Some (PStr "5,000")
  /\ parse_int "5,000" = Invalid
  /\ async_invoke Examples.quote_world Examples.quote_self Examples.args_bad_footage
     = ([ClientCreated (mcp_server_path Examples.quote_self); GetTools],
        Ret ("❌ Error generating quote: "
             +:+ "invalid literal for int() with base 10: '5,000'"
             +:+ nl +:+ nl
             +:+ "Please ensure the MCP quote server is configured correctly.")).
Proof.
  assert (H1 : Examples.args_bad_footage !! "square_footage" = Some (PStr "5,000"))
    by reflexivity.
  assert (H2 : parse_int "5,000" = Invalid) by reflexivity.
  split; [exact H1|]. split; [exact H2|].
  refine (proj1 (square_footage_fault Examples.quote_world Examples.quote_self
                   Examples.args_bad_footage
                   [mkTool "list_quotes"; mkTool "Create_Quote"] (mkTool "Create_Quote")
                   "5,000" _ _ _ _ _ H1) H2); reflexivity.
Defined.

(** *** The stand-alone client *)

(** X23.  The stand-alone client chooses its tool by "quote" alone.  When
    the coded tool finds a quote tool, so does the client, and the client's
    choice is the same tool or one, earlier in the list, whose name lacks
    "create"; when the client finds none, neither does the coded tool. *)
Theorem selection_compared tools :
  (forall tool,
     find_quote_tool tools = Some tool ->
     exists tool',
       QuoteClientExample.select_quote_tool tools = Some tool'
       /\ (tool' = tool \/ str_in "create" (lower (tool_name tool')) = false))
  /\ (QuoteClientExample.select_quote_tool tools = None ->
      find_quote_tool tools = None).
Proof.
  unfold find_quote_tool, QuoteClientExample.select_quote_tool.
  induction tools as [|t ts [IH1 IH2]]; simpl.
  - split; [discriminate|reflexivity].
  - destruct (str_in "quote" (lower (tool_name t))) eqn:Hq; simpl.
    + split; [|discriminate].
      intros tool H. exists t. split; [reflexivity|].
      destruct (str_in "create" (lower (tool_name t))) eqn:Hc.
      * left. congruence.
      * right. reflexivity.
    + split; [exact IH1|exact IH2].
Qed.

Lemma selection_compared_witness :
  find_quote_tool [mkTool "list_quotes"; mkTool "Create_Quote"]
  = Some (mkTool "Create_Quote")
  /\ QuoteClientExample.select_quote_tool [mkTool "list_quotes"; mkTool "Create_Quote"]
     = Some (mkTool "list_quotes")
  /\ exists tool',
       QuoteClientExample.select_quote_tool
         [mkTool "list_quotes"; mkTool "Create_Quote"] = Some tool'
       /\ (tool' = mkTool "Create_Quote"
           \/ str_in "create" (lower (tool_name tool')) = false).
Proof.
  assert (H : find_quote_tool [mkTool "list_quotes"; mkTool "Create_Quote"]
              = Some (mkTool "Create_Quote")) by reflexivity.
  split; [exact H|]. split; [reflexivity|].
  exact (proj1 (selection_compared [mkTool "list_quotes"; mkTool "Create_Quote"])
           _ H).
Defined.

End QuoteExtras.
